(** * streamlit/config_util.py: the configuration listing

    A shallow embedding of [server_option_changed], [generate_config],
    [show_config], [_clean] and [_clean_paragraphs] from
    [lib/streamlit/config_util.py], followed by the properties of the
    listing they produce.

    Python [str] values are modelled by [string], one [ascii] per character
    (code points below 256).  A Python [dict] is modelled by its list of
    items in iteration (insertion) order. *)

From Stdlib Require Import String Ascii List Bool Arith ZArith Lia DecimalString.
Import ListNotations.
Open Scope string_scope.

(** ** Python string primitives used by the module *)

Module PyStr.

(** The line feed, written [\n] in the source. *)
Definition nl : string := String (ascii_of_nat 10) EmptyString.

(** [str.isspace] on one character: TAB..CR, FS..US, SPACE, NEL, NBSP. *)
Definition is_space (c : ascii) : bool :=
  let n := nat_of_ascii c in
  (((9 <=? n) && (n <=? 13)) || ((28 <=? n) && (n <=? 32))
   || (n =? 133) || (n =? 160))%nat.

Definition is_empty (s : string) : bool :=
  match s with EmptyString => true | String _ _ => false end.

(** [cur + c] *)
Definition snoc (cur : string) (c : ascii) : string :=
  cur ++ String c EmptyString.

(** [s.split()]: the maximal runs of non-whitespace characters. *)
Fixpoint split_ws_from (cur s : string) : list string :=
  match s with
  | EmptyString => if is_empty cur then [] else [cur]
  | String c s' =>
      if is_space c
      then (if is_empty cur then split_ws_from EmptyString s'
            else cur :: split_ws_from EmptyString s')
      else split_ws_from (snoc cur c) s'
  end.

Definition split_ws (s : string) : list string := split_ws_from EmptyString s.

(** [s.lstrip()] *)
Fixpoint lstrip (s : string) : string :=
  match s with
  | EmptyString => EmptyString
  | String c s' => if is_space c then lstrip s' else s
  end.

(** [s.rstrip()] *)
Fixpoint rstrip (s : string) : string :=
  match s with
  | EmptyString => EmptyString
  | String c s' =>
      let r := rstrip s' in
      if is_empty r && is_space c then EmptyString else String c r
  end.

(** [s.strip()] *)
Definition strip (s : string) : string := rstrip (lstrip s).

(** [s[n:]] *)
Fixpoint drop (n : nat) (s : string) : string :=
  match n, s with
  | O, _ => s
  | S _, EmptyString => EmptyString
  | S k, String _ s' => drop k s'
  end.

(** [s.split(sep)] for a non-empty [sep]: cut at the non-overlapping
    occurrences of [sep], scanning from the left.  [skip] counts the
    characters of a matched separator that are still to be passed over and
    [cur] is the piece being read. *)
Fixpoint split_from (sep : string) (skip : nat) (cur s : string) : list string :=
  match s with
  | EmptyString => [cur]
  | String c s' =>
      match skip with
      | S k => split_from sep k cur s'
      | O =>
          if prefix sep s
          then cur :: split_from sep (String.length sep - 1) EmptyString s'
          else split_from sep O (snoc cur c) s'
      end
  end.

Definition split (sep s : string) : list string :=
  split_from sep O EmptyString s.

(** [sep.join(l)] *)
Definition join (sep : string) (l : list string) : string := String.concat sep l.

(** [s.startswith(p)] *)
Definition startswith (s p : string) : bool := prefix p s.

End PyStr.

Import PyStr.

(** ** Exceptions and the state-and-exception monad *)

(** The exceptions the module can let escape: the two built-in ones raised
    by indexing, whatever the file layer raises, kept by its message, and
    the two that reading an attribute of [None] or parsing a date raise. *)
Inductive exn : Type :=
| IndexError
| KeyError (k : string)
| FileLayerError (what : string)
| AttributeError
| ValueError.

(** A computation over a mutable store [S] that returns or raises. *)
Definition M (S A : Type) : Type := S -> (exn + A) * S.

Definition ret {S A} (a : A) : M S A := fun s => (inr a, s).

Definition raise {S A} (e : exn) : M S A := fun s => (inl e, s).

Definition bind {S A B} (m : M S A) (k : A -> M S B) : M S B :=
  fun s =>
    match m s with
    | (inl e, s') => (inl e, s')
    | (inr a, s') => k a s'
    end.

Declare Scope py_scope.
Delimit Scope py_scope with py.
Notation "x <- m ;; k" := (bind m (fun x => k))
  (at level 61, m at next level, right associativity) : py_scope.
Notation "m ;; k" := (bind m (fun _ => k))
  (at level 61, right associativity) : py_scope.
Open Scope py_scope.

(** [for x in l: body(x)] *)
Fixpoint for_each {S A} (l : list A) (body : A -> M S unit) : M S unit :=
  match l with
  | [] => ret tt
  | x :: l' => body x ;; for_each l' body
  end.

(** [enumerate(l)] *)
Definition enumerate {A} (l : list A) : list (nat * A) :=
  combine (seq 0 (List.length l)) l.

(** [l[i]] *)
Definition getindex {S A} (l : list A) (i : nat) : M S A :=
  match nth_error l i with
  | Some a => ret a
  | None => raise IndexError
  end.

(** ** Dictionaries *)

Definition dict (V : Type) : Type := list (string * V).

Definition keys {V} (d : dict V) : list string := map fst d.

Fixpoint lookup {V} (d : dict V) (k : string) : option V :=
  match d with
  | [] => None
  | (k', v) :: d' => if String.eqb k' k then Some v else lookup d' k
  end.

(** [d[k]] *)
Definition getitem {V} (d : dict V) (k : string) : exn + V :=
  match lookup d k with
  | Some v => inr v
  | None => inl (KeyError k)
  end.

(** ** External collaborators *)

(** What the module uses but does not define: the values a configuration
    option can hold with Python's [!=] on them, [toml.dumps] on the
    one-entry table [{k: v}], [click.style] with its [fg] and [bold]
    keywords, and the constant [ConfigOption.DEFAULT_DEFINITION]. *)
Class Libs : Type := {
  Val : Type;
  val_ne : Val -> Val -> bool;
  toml_dumps : string -> Val -> string;
  click_style : string -> option string -> option bool -> string;
  DEFAULT_DEFINITION : string
}.

(** The file layer and the terminal: [streamlit_write(path, project=...)]
    entered and left as a context manager, the file object's [write] and
    [name], and [click.echo].  [streamlit_exit f e] is what leaving the
    [with] block does when [e] is in flight; it answers with the exception
    that goes on, if any. *)
Class FileLayer : Type := {
  World : Type;
  File : Type;
  streamlit_write : string -> bool -> M World File;
  streamlit_exit : File -> option exn -> World -> option exn * World;
  file_write : File -> string -> M World unit;
  file_name : File -> string;
  click_echo : string -> M World unit
}.

(** [with enter as f: body(f)] *)
Definition with_as `{FileLayer} (enter : M World File)
    (body : File -> M World unit) : M World unit :=
  fun w =>
    match enter w with
    | (inl e, w1) => (inl e, w1)
    | (inr f, w1) =>
        let '(r, w2) := body f w1 in
        let in_flight := match r with inl e => Some e | inr _ => None end in
        match streamlit_exit f in_flight w2 with
        | (Some e, w3) => (inl e, w3)
        | (None, w3) => (inr tt, w3)
        end
    end.

(** ** ConfigOption, as this module reads it *)

Module config_option.

(** Modelled from the spec: the class [ConfigOption] of
    [streamlit.config_option] is not among the sources at hand.  It is a
    named setting with section, description, default value, current value,
    visibility, deprecation flag and metadata, and provenance; the record
    has the attributes that [config_util] reads, and [is_expired] is what
    the method [is_expired()] answers during the call. *)
Record ConfigOption `{Libs} : Type := {
  key : string;
  section : string;
  description : string;
  default_val : Val;
  value : Val;
  visibility : string;
  deprecated : bool;
  deprecation_text : string;
  expiration_date : string;
  where_defined : string;
  is_expired : bool
}.

End config_option.
Export config_option.

Section ConfigUtil.

Context `{L : Libs}.

(** ** server_option_changed *)

(** The loop of [server_option_changed] over [old_options.keys()]. *)
Fixpoint server_option_loop (names : list string)
    (old_options new_options : dict ConfigOption) : exn + bool :=
  match names with
  | [] => inr false
  | opt_name :: rest =>
      if negb (startswith opt_name "server")
      then server_option_loop rest old_options new_options
      else
        match getitem old_options opt_name with
        | inl e => inl e
        | inr o =>
            match getitem new_options opt_name with
            | inl e => inl e
            | inr n =>
                if val_ne (value o) (value n) then inr true
                else server_option_loop rest old_options new_options
            end
        end
  end.

Definition server_option_changed (old_options new_options : dict ConfigOption)
    : exn + bool :=
  server_option_loop (keys old_options) old_options new_options.

(** The items of a mapping whose key starts with "server". *)
Definition server_items (d : dict ConfigOption) : dict ConfigOption :=
  filter (fun item => startswith (fst item) "server") d.

(** ** _clean and _clean_paragraphs *)

Definition _clean (txt : string) : string := strip (join " " (split_ws txt)).

Definition _clean_paragraphs (txt : string) : list string :=
  map _clean (split (nl ++ nl) txt).

(** ** generate_config *)

Definition SKIP_SECTIONS : list string := ["_test"].

(** [section in SKIP_SECTIONS] *)
Definition in_skip_sections (section : string) : bool :=
  existsb (String.eqb section) SKIP_SECTIONS.

(** The triple-quoted text handed to [_clean] at the top of [generate_config]. *)
Definition header_text : string :=
  nl ++ "        # Below are all the sections and options you can have in"
  ++ nl ++ "        ~/.streamlit/config.toml." ++ nl ++ "    ".

(** The output buffer [out] and the five closures that append to it. *)
Definition Out : Type := list string.

Definition out_append (text : string) : M Out unit :=
  fun out => (inr tt, (out ++ [text])%list).

Definition append_desc (save_to_file : bool) (text : string) : M Out unit :=
  if save_to_file then out_append text
  else out_append (click_style text None (Some true)).

Definition append_comment (save_to_file : bool) (text : string) : M Out unit :=
  if save_to_file then out_append text
  else out_append (click_style text None None).

Definition append_section (save_to_file : bool) (text : string) : M Out unit :=
  if save_to_file then out_append text
  else out_append (click_style text (Some "green") (Some true)).

Definition append_setting (save_to_file : bool) (text : string) : M Out unit :=
  if save_to_file then out_append text
  else out_append (click_style text (Some "green") None).

Definition append_newline : M Out unit := out_append "".

(** The body of the inner loop once the three [continue] tests are passed
    (from [key = option.key.split(".")[1]] to [append_setting]). *)
Definition emit_option (save_to_file : bool) (option : ConfigOption)
    : M Out unit :=
  key <- getindex (split "." (key option)) 1 ;;
  let description_paragraphs := _clean_paragraphs (description option) in
  for_each (enumerate description_paragraphs) (fun '(i, txt) =>
    if Nat.eqb i 0 then append_desc save_to_file ("# " ++ txt)
    else append_comment save_to_file ("# " ++ txt)) ;;
  let toml_default := toml_dumps "default" (default_val option) in
  let toml_default := strip (drop 10 toml_default) in
  (if Nat.ltb 0 (String.length toml_default)
   then append_comment save_to_file ("# Default: " ++ toml_default)
   else ret tt) ;;
  (if deprecated option then
     append_comment save_to_file "#" ;;
     (if negb save_to_file
      then append_comment save_to_file
             ("# " ++ click_style "DEPRECATED." (Some "yellow") None)
      else append_comment save_to_file "# DEPRECATED.") ;;
     append_comment save_to_file
       ("# " ++ join nl (_clean_paragraphs (deprecation_text option))) ;;
     append_comment save_to_file
       ("# This option will be removed on or after "
        ++ expiration_date option ++ ".") ;;
     append_comment save_to_file "#"
   else ret tt) ;;
  let option_is_manually_set :=
    negb (String.eqb (where_defined option) DEFAULT_DEFINITION) in
  (if option_is_manually_set
   then append_comment save_to_file
          ("# The value below was set in " ++ where_defined option)
   else ret tt) ;;
  let toml_setting := toml_dumps key (value option) in
  let toml_setting :=
    if negb (Nat.eqb (String.length toml_setting) 0)
       && negb option_is_manually_set
    then "#" ++ toml_setting else toml_setting in
  let toml_setting :=
    if Nat.eqb (String.length toml_setting) 0
    then "#" ++ key ++ " =" ++ nl else toml_setting in
  append_setting save_to_file toml_setting.

(** The body of [for key, option in config_options.items()]. *)
Definition option_step (save_to_file : bool) (section : string)
    (item : string * ConfigOption) : M Out unit :=
  let '(_, option) := item in
  if negb (String.eqb (config_option.section option) section) then ret tt
  else if String.eqb (visibility option) "hidden" then ret tt
  else if is_expired option then ret tt
  else emit_option save_to_file option.

(** The body of [for section, section_description in
    section_descriptions.items()]. *)
Definition section_step (save_to_file : bool)
    (config_options : dict ConfigOption) (item : string * string)
    : M Out unit :=
  let '(section, _) := item in
  if in_skip_sections section then ret tt
  else
    append_newline ;;
    append_section save_to_file ("[" ++ section ++ "]") ;;
    append_newline ;;
    for_each config_options (option_step save_to_file section).

(** Lines 34 to 138: everything that fills [out]. *)
Definition fill_out (section_descriptions : dict string)
    (config_options : dict ConfigOption) (save_to_file : bool) : M Out unit :=
  out_append (_clean header_text) ;;
  for_each section_descriptions (section_step save_to_file config_options).

Context `{F : FileLayer}.

(** [out = []] is local to the call: the filling runs on a fresh buffer
    and leaves the world alone. *)
Definition with_fresh_out (m : M Out unit) : M World Out :=
  fun w =>
    match m [] with
    | (inl e, _) => (inl e, w)
    | (inr _, out) => (inr out, w)
    end.

Definition generate_config (section_descriptions : dict string)
    (config_options : dict ConfigOption) (save_to_file : bool)
    : M World (list string) :=
  out <- with_fresh_out
           (fill_out section_descriptions config_options save_to_file) ;;
  (if save_to_file then
     with_as (streamlit_write "config.toml" true) (fun f =>
       file_write f (join nl out) ;;
       click_echo ("Wrote config file to " ++ file_name f))
   else ret tt) ;;
  ret out.

Definition show_config (section_descriptions : dict string)
    (config_options : dict ConfigOption) : M World unit :=
  out <- generate_config section_descriptions config_options false ;;
  click_echo (join nl out).

End ConfigUtil.

(** ** The listing, described line by line

    A second description of what [generate_config] returns, written as the
    list of lines it is meant to be: the header, then one block per
    section, each block holding the lines of the options of that section.
    It is compared with the loops above in the theorems. *)

Section Listing.

Context `{L : Libs}.

(** A line as it goes into [out]: bare in file mode, passed through
    [click.style] in terminal mode. *)
Definition styled_desc (save_to_file : bool) (text : string) : string :=
  if save_to_file then text else click_style text None (Some true).

Definition styled_comment (save_to_file : bool) (text : string) : string :=
  if save_to_file then text else click_style text None None.

Definition styled_section (save_to_file : bool) (text : string) : string :=
  if save_to_file then text else click_style text (Some "green") (Some true).

Definition styled_setting (save_to_file : bool) (text : string) : string :=
  if save_to_file then text else click_style text (Some "green") None.

(** A word: not empty and free of whitespace. *)
Fixpoint no_space (s : string) : bool :=
  match s with
  | EmptyString => true
  | String c s' => negb (is_space c) && no_space s'
  end.

Definition is_word (s : string) : bool := negb (is_empty s) && no_space s.

(** A whitespace-normalised text: words separated by single spaces. *)
Definition normalised (s : string) : Prop :=
  exists ws, forallb is_word ws = true /\ s = join " " ws.

(** The outcome of filling a buffer: the lines added, or the exception. *)
Definition lines : Type := exn + list string.

Definition then_lines (r1 r2 : lines) : lines :=
  match r1 with
  | inl e => inl e
  | inr l1 => match r2 with inl e => inl e | inr l2 => inr (l1 ++ l2)%list end
  end.

Definition gather (rs : list lines) : lines := fold_right then_lines (inr []) rs.

(** What running [m] on the buffer [out] leaves in it, or the exception. *)
Definition outcome (m : M Out unit) (out : Out) : lines :=
  match m out with
  | (inl e, _) => inl e
  | (inr _, out') => inr out'
  end.

(** [m] only appends: on any buffer it adds the lines [r], or raises. *)
Definition appends (m : M Out unit) (r : lines) : Prop :=
  forall out,
    outcome m out
    = match r with inl e => inl e | inr l => inr (out ++ l)%list end.

(** The part of the key after the first dot, [option.key.split(".")[1]]. *)
Definition short_key (o : ConfigOption) : option string :=
  nth_error (split "." (key o)) 1.

(** One comment line per paragraph of the description, the first in the
    description style. *)
Definition description_lines (save_to_file : bool) (o : ConfigOption)
    : list string :=
  match _clean_paragraphs (description o) with
  | [] => []
  | p :: ps =>
      styled_desc save_to_file ("# " ++ p)
      :: map (fun txt => styled_comment save_to_file ("# " ++ txt)) ps
  end.

(** The default value as TOML: [toml.dumps({"default": v})[10:].strip()]. *)
Definition toml_default_of (o : ConfigOption) : string :=
  strip (drop 10 (toml_dumps "default" (default_val o))).

Definition default_lines (save_to_file : bool) (o : ConfigOption)
    : list string :=
  if is_empty (toml_default_of o) then []
  else [styled_comment save_to_file ("# Default: " ++ toml_default_of o)].

Definition removal_notice (o : ConfigOption) : string :=
  "# This option will be removed on or after " ++ expiration_date o ++ ".".

Definition deprecation_lines (save_to_file : bool) (o : ConfigOption)
    : list string :=
  if deprecated o then
    [ styled_comment save_to_file "#";
      styled_comment save_to_file
        (if save_to_file then "# DEPRECATED."
         else "# " ++ click_style "DEPRECATED." (Some "yellow") None);
      styled_comment save_to_file
        ("# " ++ join nl (_clean_paragraphs (deprecation_text o)));
      styled_comment save_to_file (removal_notice o);
      styled_comment save_to_file "#" ]
  else [].

Definition is_manually_set (o : ConfigOption) : bool :=
  negb (String.eqb (where_defined o) DEFAULT_DEFINITION).

Definition provenance_lines (save_to_file : bool) (o : ConfigOption)
    : list string :=
  if is_manually_set o
  then [styled_comment save_to_file
          ("# The value below was set in " ++ where_defined o)]
  else [].

(** The text of the setting line of [o] under the key [k]. *)
Definition setting_text (k : string) (o : ConfigOption) : string :=
  let t := toml_dumps k (value o) in
  if is_empty t then "#" ++ k ++ " =" ++ nl
  else if is_manually_set o then t
  else "#" ++ t.

(** The lines of one option whose short key is [k], in order. *)
Definition option_block (save_to_file : bool) (k : string) (o : ConfigOption)
    : list string :=
  (description_lines save_to_file o
   ++ default_lines save_to_file o
   ++ deprecation_lines save_to_file o
   ++ provenance_lines save_to_file o
   ++ [styled_setting save_to_file (setting_text k o)])%list.

Definition option_lines (save_to_file : bool) (o : ConfigOption) : lines :=
  match short_key o with
  | None => inl IndexError
  | Some k => inr (option_block save_to_file k o)
  end.

(** The three tests an option passes to be listed under [section]. *)
Definition listed_under (section : string) (o : ConfigOption) : bool :=
  String.eqb (config_option.section o) section
  && negb (String.eqb (visibility o) "hidden")
  && negb (is_expired o).

Definition section_header (save_to_file : bool) (section : string)
    : list string :=
  [""; styled_section save_to_file ("[" ++ section ++ "]"); ""].

Definition section_block (save_to_file : bool)
    (config_options : dict ConfigOption) (section : string) : lines :=
  then_lines (inr (section_header save_to_file section))
    (gather (map (option_lines save_to_file)
               (filter (listed_under section) (map snd config_options)))).

Definition header_line : string :=
  "# Below are all the sections and options you can have in ~/.streamlit/config.toml.".

Definition listed_sections (section_descriptions : dict string) : list string :=
  filter (fun s => negb (in_skip_sections s)) (keys section_descriptions).

Definition listing (section_descriptions : dict string)
    (config_options : dict ConfigOption) (save_to_file : bool) : lines :=
  then_lines (inr [header_line])
    (gather (map (section_block save_to_file config_options)
               (listed_sections section_descriptions))).

(** An option that [generate_config] passes over: hidden, expired, or of
    the internal test section. *)
Definition is_skipped (o : ConfigOption) : bool :=
  String.eqb (visibility o) "hidden"
  || is_expired o
  || String.eqb (config_option.section o) "_test".

(** An option that [generate_config] lists: it passes the three tests
    under a section of the mapping that is not in [SKIP_SECTIONS]. *)
Definition is_listed (section_descriptions : dict string) (o : ConfigOption)
    : bool :=
  existsb (fun s => listed_under s o) (listed_sections section_descriptions).

(** A key of the form [section.name] has a part after its first dot. *)
Definition has_short_key (o : ConfigOption) : bool :=
  match short_key o with Some _ => true | None => false end.

Context `{F : FileLayer}.

(** The file step of [generate_config]: the [with] block on [out]. *)
Definition save_step (out : list string) : M World unit :=
  with_as (streamlit_write "config.toml" true) (fun f =>
    file_write f (join nl out) ;;
    click_echo ("Wrote config file to " ++ file_name f)).

End Listing.

(** ** A concrete setting to run the module in

    Scalar option values with Python's comparison and their rendering by
    [toml.dumps] under a bare key, ANSI styling in the manner of
    [click.style], and a file layer that keeps the written files and the
    echoed text in a record. *)

Module Sim.

Inductive scalar : Type :=
| SNone
| SBool (b : bool)
| SInt (n : Z).

(** [bool] is a subclass of [int]: [True == 1] and [False == 0]. *)
Definition as_int (v : scalar) : option Z :=
  match v with
  | SNone => None
  | SBool b => Some (if b then 1%Z else 0%Z)
  | SInt n => Some n
  end.

Definition scalar_ne (a b : scalar) : bool :=
  match as_int a, as_int b with
  | None, None => false
  | Some x, Some y => negb (Z.eqb x y)
  | _, _ => true
  end.

(** [toml.dumps({k: v})] for a bare key [k] (letters, digits, "-" and "_"),
    which is written as it is; other keys would be quoted.  A table entry
    whose value is [None] is left out. *)
Definition dumps (k : string) (v : scalar) : string :=
  match v with
  | SNone => ""
  | SBool b => k ++ " = " ++ (if b then "true" else "false") ++ nl
  | SInt n => k ++ " = " ++ NilZero.string_of_int (Z.to_int n) ++ nl
  end.

(** The start of an ANSI escape sequence, ESC followed by a bracket. *)
Definition esc : string := String (ascii_of_nat 27) "[".

(** [click.style(text, fg=..., bold=...)]: the colour code, the weight
    code, the text, and the reset code. *)

Definition ansi_style (text : string) (fg : option string)
    (bold : option bool) : string :=
  (match fg with
   | Some "green" => esc ++ "32m"
   | Some "yellow" => esc ++ "33m"
   | _ => ""
   end)
  ++ (match bold with
      | Some true => esc ++ "1m"
      | Some false => esc ++ "22m"
      | None => ""
      end)
  ++ text ++ esc ++ "0m".

Definition libs : Libs := {|
  Val := scalar;
  val_ne := scalar_ne;
  toml_dumps := dumps;
  click_style := ansi_style;
  DEFAULT_DEFINITION := "<default>"
|}.

#[local] Existing Instance libs.

Record world : Type := {
  disk : list (string * string);
  terminal : list string;
  writable : bool
}.

(** Where a file of the given name goes: under the project's [.streamlit]
    directory, or under the user's. *)
Definition project_path (path : string) (project : bool) : string :=
  (if project then ".streamlit/" else "~/.streamlit/") ++ path.

(** A file layer that refuses to open a file when the world is not
    writable, and otherwise records what is written and echoed. *)
Definition files : FileLayer := {|
  World := world;
  File := string;
  streamlit_write := fun path project w =>
    if writable w then (inr (project_path path project), w)
    else (inl (FileLayerError ("Unable to write file: "
                               ++ project_path path project)), w);
  streamlit_exit := fun _ e w => (e, w);
  file_write := fun f s w =>
    (inr tt, {| disk := (f, s) :: disk w;
                terminal := terminal w;
                writable := writable w |});
  file_name := fun f => f;
  click_echo := fun s w =>
    (inr tt, {| disk := disk w;
                terminal := (terminal w ++ [s])%list;
                writable := writable w |})
|}.

Definition fresh_world : world :=
  {| disk := []; terminal := []; writable := true |}.

Definition used_world : world :=
  {| disk := [(".streamlit/config.toml", "[server]")];
     terminal := ["You can now view your app in your browser."];
     writable := true |}.

Definition read_only_world : world :=
  {| disk := []; terminal := []; writable := false |}.

Definition mk (key section description : string) (default_val value : scalar)
    (where_defined : string) : ConfigOption :=
  {| key := key; section := section; description := description;
     default_val := default_val; value := value; visibility := "visible";
     deprecated := false; deprecation_text := ""; expiration_date := "";
     where_defined := where_defined; is_expired := false |}.

Definition port : ConfigOption :=
  mk "server.port" "server" "The port where the server will listen."
     (SInt 8501%Z) (SInt 8501%Z) "<default>".

Definition headless : ConfigOption :=
  mk "server.headless" "server" "Do not open a browser window on start."
     (SBool false) (SBool true) "command-line argument or environment variable".

Definition address : ConfigOption :=
  mk "server.address" "server" "The address where the server will listen."
     SNone SNone "<default>".

Definition gather_stats : ConfigOption :=
  mk "browser.gatherUsageStats" "browser" "Whether to send usage statistics."
     (SBool true) (SBool true) "<default>".

Definition hidden_flag : ConfigOption :=
  {| key := "server.secret"; section := "server"; description := "Internal.";
     default_val := SInt 1%Z; value := SInt 1%Z; visibility := "hidden";
     deprecated := false; deprecation_text := ""; expiration_date := "";
     where_defined := "<default>"; is_expired := false |}.

Definition old_flag : ConfigOption :=
  {| key := "server.folderWatchBlacklist"; section := "server";
     description := "Folders that are not watched.";
     default_val := SNone; value := SNone; visibility := "visible";
     deprecated := true;
     deprecation_text := "Use server.folderWatchList instead."
                         ++ nl ++ nl ++ "See the documentation.";
     expiration_date := "2023-01-01";
     where_defined := "<default>"; is_expired := false |}.

Definition no_dot : ConfigOption :=
  mk "port" "server" "A key without a section." (SInt 1%Z) (SInt 1%Z)
     "<default>".

Definition sections : dict string :=
  [("server", "Settings for the server."); ("_test", "Special test section.");
   ("browser", "Settings for the browser.")].

Definition options : dict ConfigOption :=
  [("server.port", port); ("browser.gatherUsageStats", gather_stats);
   ("server.headless", headless); ("server.secret", hidden_flag)].

(** [generate_config] in this setting. *)
Definition run := @generate_config libs files.

(** The lines of the four sample options in file mode. *)
Definition file_lines : list string :=
  [ header_line; ""; "[server]"; "";
    "# The port where the server will listen.";
    "# Default: 8501";
    "#port = 8501" ++ nl;
    "# Do not open a browser window on start.";
    "# Default: false";
    "# The value below was set in command-line argument or environment variable";
    "headless = true" ++ nl;
    ""; "[browser]"; "";
    "# Whether to send usage statistics.";
    "# Default: true";
    "#gatherUsageStats = true" ++ nl ].

(** The lines of the option without default and value, in file mode. *)
Definition address_lines : list string :=
  [ header_line; ""; "[server]"; "";
    "# The address where the server will listen.";
    "#address =" ++ nl;
    ""; "[browser]"; "" ].

(** The lines of the deprecated option, in file mode. *)
Definition old_flag_lines : list string :=
  [ header_line; ""; "[server]"; "";
    "# Folders that are not watched.";
    "#";
    "# DEPRECATED.";
    "# Use server.folderWatchList instead." ++ nl ++ "See the documentation.";
    "# This option will be removed on or after 2023-01-01.";
    "#";
    "#folderWatchBlacklist =" ++ nl;
    ""; "[browser]"; "" ].

(** The new mapping of a reload that moved the port. *)
Definition moved_port : ConfigOption :=
  mk "server.port" "server" "The port where the server will listen."
     (SInt 8501%Z) (SInt 8502%Z) "config.toml".

Definition reloaded_options : dict ConfigOption :=
  [("browser.gatherUsageStats", gather_stats); ("server.port", moved_port);
   ("server.headless", headless); ("server.secret", hidden_flag);
   ("server.enableCORS", headless)].

End Sim.

(** ** Option objects with optional attributes and a clock

    The same functions once more, on the option objects as Python has
    them: an attribute that the constructor leaves at [None] is [None]
    here, and [is_expired()] is a call that reads the clock and may
    raise. *)

Module obj.

(** Modelled from the spec: the class [ConfigOption] of
    [streamlit.config_option] is not among the sources at hand.  The
    record has the attributes that [config_util] reads; [description],
    [deprecation_text] and [expiration_date] are optional texts. *)
Record OptionObject `{Libs} : Type := {
  key : string;
  section : string;
  description : option string;
  default_val : Val;
  value : Val;
  visibility : string;
  deprecated : bool;
  deprecation_text : option string;
  expiration_date : option string;
  where_defined : string
}.

End obj.

(** [option.is_expired()]: what the method answers, or raises, in a world;
    the world holds the clock that the method reads. *)
Class Runtime `{L : Libs} `{F : FileLayer} : Type := {
  is_expired_in : World -> obj.OptionObject -> exn + bool
}.

Module Dyn.

Section OnObjects.

Context `{L : Libs} `{F : FileLayer} `{R : @Runtime L F}.

(** ["%s" % x] for a text or [None]. *)
Definition format_s (x : option string) : string :=
  match x with
  | Some s => s
  | None => "None"
  end.

(** [_clean_paragraphs(txt)] where [txt] may be [None]: [None] has no
    [split]. *)
Definition _clean_paragraphs (txt : option string) : M Out (list string) :=
  match txt with
  | Some t => ret (map _clean (split (nl ++ nl) t))
  | None => raise AttributeError
  end.

(** The body of the inner loop once the three [continue] tests are passed. *)
Definition emit_option (save_to_file : bool) (option : obj.OptionObject)
    : M Out unit :=
  key <- getindex (split "." (obj.key option)) 1 ;;
  description_paragraphs <- _clean_paragraphs (obj.description option) ;;
  for_each (enumerate description_paragraphs) (fun '(i, txt) =>
    if Nat.eqb i 0 then append_desc save_to_file ("# " ++ txt)
    else append_comment save_to_file ("# " ++ txt)) ;;
  let toml_default := toml_dumps "default" (obj.default_val option) in
  let toml_default := strip (drop 10 toml_default) in
  (if Nat.ltb 0 (String.length toml_default)
   then append_comment save_to_file ("# Default: " ++ toml_default)
   else ret tt) ;;
  (if obj.deprecated option then
     append_comment save_to_file "#" ;;
     (if negb save_to_file
      then append_comment save_to_file
             ("# " ++ click_style "DEPRECATED." (Some "yellow") None)
      else append_comment save_to_file "# DEPRECATED.") ;;
     deprecation_paragraphs <-
       _clean_paragraphs (obj.deprecation_text option) ;;
     append_comment save_to_file
       ("# " ++ join nl deprecation_paragraphs) ;;
     append_comment save_to_file
       ("# This option will be removed on or after "
        ++ format_s (obj.expiration_date option) ++ ".") ;;
     append_comment save_to_file "#"
   else ret tt) ;;
  let option_is_manually_set :=
    negb (String.eqb (obj.where_defined option) DEFAULT_DEFINITION) in
  (if option_is_manually_set
   then append_comment save_to_file
          ("# The value below was set in " ++ obj.where_defined option)
   else ret tt) ;;
  let toml_setting := toml_dumps key (obj.value option) in
  let toml_setting :=
    if negb (Nat.eqb (String.length toml_setting) 0)
       && negb option_is_manually_set
    then "#" ++ toml_setting else toml_setting in
  let toml_setting :=
    if Nat.eqb (String.length toml_setting) 0
    then "#" ++ key ++ " =" ++ nl else toml_setting in
  append_setting save_to_file toml_setting.

(** The body of [for key, option in config_options.items()], run in the
    world [w] whose clock [is_expired()] reads. *)
Definition option_step (w : World) (save_to_file : bool) (section : string)
    (item : string * obj.OptionObject) : M Out unit :=
  let '(_, option) := item in
  if negb (String.eqb (obj.section option) section) then ret tt
  else if String.eqb (obj.visibility option) "hidden" then ret tt
  else
    match is_expired_in w option with
    | inl e => raise e
    | inr true => ret tt
    | inr false => emit_option save_to_file option
    end.

Definition section_step (w : World) (save_to_file : bool)
    (config_options : dict obj.OptionObject) (item : string * string)
    : M Out unit :=
  let '(section, _) := item in
  if in_skip_sections section then ret tt
  else
    append_newline ;;
    append_section save_to_file ("[" ++ section ++ "]") ;;
    append_newline ;;
    for_each config_options (option_step w save_to_file section).

Definition fill_out (w : World) (section_descriptions : dict string)
    (config_options : dict obj.OptionObject) (save_to_file : bool)
    : M Out unit :=
  out_append (_clean header_text) ;;
  for_each section_descriptions
    (section_step w save_to_file config_options).

Definition generate_config (section_descriptions : dict string)
    (config_options : dict obj.OptionObject) (save_to_file : bool)
    : M World (list string) :=
  fun w =>
    (out <- with_fresh_out
              (fill_out w section_descriptions config_options save_to_file) ;;
     (if save_to_file then
        with_as (streamlit_write "config.toml" true) (fun f =>
          file_write f (join nl out) ;;
          click_echo ("Wrote config file to " ++ file_name f))
      else ret tt) ;;
     ret out) w.

(** *** The listing of objects, described line by line *)

(** The object seen as an option all of whose attributes are there and
    whose [is_expired()] answered False. *)
Definition as_config_option (o : obj.OptionObject) : ConfigOption :=
  {| config_option.key := obj.key o;
     config_option.section := obj.section o;
     config_option.description :=
       match obj.description o with Some d => d | None => "" end;
     config_option.default_val := obj.default_val o;
     config_option.value := obj.value o;
     config_option.visibility := obj.visibility o;
     config_option.deprecated := obj.deprecated o;
     config_option.deprecation_text :=
       match obj.deprecation_text o with Some t => t | None => "" end;
     config_option.expiration_date := format_s (obj.expiration_date o);
     config_option.where_defined := obj.where_defined o;
     config_option.is_expired := false |}.

Definition is_none {A} (x : option A) : bool :=
  match x with Some _ => false | None => true end.

(** What [emit_option] adds for an object, or the exception: IndexError
    for a key without a dot, AttributeError for a description that is
    [None] or, on a deprecated option, a deprecation text that is
    [None]. *)
Definition object_lines (save_to_file : bool) (o : obj.OptionObject)
    : lines :=
  match nth_error (split "." (obj.key o)) 1 with
  | None => inl IndexError
  | Some k =>
      if is_none (obj.description o) then inl AttributeError
      else if obj.deprecated o && is_none (obj.deprecation_text o)
      then inl AttributeError
      else inr (option_block save_to_file k (as_config_option o))
  end.

(** The two tests an object passes before [is_expired()] is called on it
    under [section]. *)
Definition consulted_under (section : string) (o : obj.OptionObject) : bool :=
  String.eqb (obj.section o) section
  && negb (String.eqb (obj.visibility o) "hidden").

Definition object_step_lines (w : World) (save_to_file : bool)
    (section : string) (o : obj.OptionObject) : lines :=
  if consulted_under section o then
    match is_expired_in w o with
    | inl e => inl e
    | inr true => inr []
    | inr false => object_lines save_to_file o
    end
  else inr [].

Definition object_listing (w : World) (section_descriptions : dict string)
    (config_options : dict obj.OptionObject) (save_to_file : bool) : lines :=
  then_lines (inr [header_line])
    (gather
       (map (fun s =>
               then_lines (inr (section_header save_to_file s))
                 (gather (map (object_step_lines w save_to_file s)
                            (map snd config_options))))
          (listed_sections section_descriptions))).

(** An object on which [is_expired()] is called: it is visible and its
    section is a section of the mapping outside SKIP_SECTIONS. *)
Definition consulted (section_descriptions : dict string)
    (o : obj.OptionObject) : bool :=
  existsb (fun s => consulted_under s o)
    (listed_sections section_descriptions).

(** The worlds [w1] and [w2] give the same answer, or the same exception,
    to every call of [is_expired()] that [generate_config] makes. *)
Definition same_expiry_answers (section_descriptions : dict string)
    (config_options : dict obj.OptionObject) (w1 w2 : World) : Prop :=
  forall item, In item config_options ->
    consulted section_descriptions (snd item) = true ->
    is_expired_in w1 (snd item) = is_expired_in w2 (snd item).



End OnObjects.

End Dyn.

(** ** More sample data *)

Module SimMore.

#[local] Existing Instance Sim.libs.

(** What the listing of the given mappings is, when there is one. *)
Definition lines_of (sd : dict string) (opts : dict ConfigOption)
    (stf : bool) : list string :=
  match listing sd opts stf with
  | inr out => out
  | inl _ => []
  end.

(** A reload that kept the port, changed [server.headless] and lost
    [server.secret]. *)
Definition quiet : ConfigOption :=
  Sim.mk "server.headless" "server" "Do not open a browser window on start."
    (Sim.SBool false) (Sim.SBool false) "<default>".

Definition partial_options : dict ConfigOption :=
  [("server.port", Sim.port); ("server.headless", quiet)].

Definition only_browser : dict ConfigOption :=
  [("browser.gatherUsageStats", Sim.gather_stats)].

(** The sections of [Sim.sections] under other descriptions. *)
Definition retitled_sections : dict string :=
  [("server", "Server."); ("_test", ""); ("browser", "Browser.")].

(** The options of [Sim.options] under other names. *)
Definition renamed_options : dict ConfigOption :=
  [("a", Sim.port); ("b", Sim.gather_stats); ("c", Sim.headless);
   ("d", Sim.hidden_flag)].

(** An option whose key has three parts. *)
Definition nested : ConfigOption :=
  Sim.mk "server.port.timeout" "server" "A key of three parts."
    (Sim.SInt 5%Z) (Sim.SInt 5%Z) "<default>".

(** A deprecated option whose deprecation text is one paragraph. *)
Definition retired : ConfigOption :=
  {| key := "server.liveSave"; section := "server";
     description := "Save on every change.";
     default_val := Sim.SBool false; value := Sim.SBool false;
     visibility := "visible"; deprecated := true;
     deprecation_text := "Use   server.runOnSave" ++ nl ++ " instead.";
     expiration_date := "2023-06-01";
     where_defined := "<default>"; is_expired := false |}.

Definition server_only : dict string := [("server", "Settings for the server.")].

Definition browser_only : dict string := [("browser", "Settings for the browser.")].

End SimMore.

(** ** Sample objects and a world with a clock *)

Module SimPy.

#[local] Existing Instance Sim.libs.

(** The simulated files together with the current date and time, written
    YYYY-MM-DD HH:MM:SS, so that later moments are greater as strings. *)
Definition world : Type := Sim.world * string.

Definition lift {A} (m : M Sim.world A) : M world A :=
  fun w =>
    let '(r, w') := m (fst w) in (r, (w', snd w)).

Definition files : FileLayer := {|
  World := world;
  File := string;
  streamlit_write := fun path project =>
    lift (@streamlit_write Sim.files path project);
  streamlit_exit := fun f e w =>
    let '(r, w') := @streamlit_exit Sim.files f e (fst w) in (r, (w', snd w));
  file_write := fun f s => lift (@file_write Sim.files f s);
  file_name := fun f => f;
  click_echo := fun s => lift (@click_echo Sim.files s)
|}.

Definition is_digit (c : ascii) : bool :=
  let n := nat_of_ascii c in ((48 <=? n) && (n <=? 57))%nat.

(** A date written YYYY-MM-DD. *)
Definition is_date (s : string) : bool :=
  match s with
  | String y1 (String y2 (String y3 (String y4 (String "-"%char
      (String m1 (String m2 (String "-"%char
         (String d1 (String d2 EmptyString))))))))) =>
      forallb is_digit [y1; y2; y3; y4; m1; m2; d1; d2]
  | _ => false
  end.

(** Modelled from the spec: [is_expired()] is not among the sources at
    hand.  An option has expired when it is deprecated and the clock is
    past the start of the day of its expiration date; a deprecated option
    without a date, or with a text that is no date, makes the method
    raise. *)
Definition expired (w : world) (o : obj.OptionObject) : exn + bool :=
  if obj.deprecated o then
    match obj.expiration_date o with
    | None => inl AttributeError
    | Some d =>
        if is_date d then inr (String.ltb (d ++ " 00:00:00") (snd w))
        else inl ValueError
    end
  else inr false.

Definition runtime : @Runtime Sim.libs files :=
  @Build_Runtime Sim.libs files expired.

(** [generate_config] on objects in this setting. *)
Definition run := @Dyn.generate_config Sim.libs files runtime.

Definition at_time (now : string) : world := (Sim.fresh_world, now).


(** The last morning of 2022 and a morning two days later. *)
Definition before : world := at_time "2022-12-31 09:00:00".

Definition after : world := at_time "2023-01-02 09:00:00".

(** The same last morning of 2022 with files and terminal text left by
    earlier work. *)
Definition before_used : world := (Sim.used_world, "2022-12-31 09:00:00").


Definition port : obj.OptionObject :=
  {| obj.key := "server.port"; obj.section := "server";
     obj.description := Some "The port where the server will listen.";
     obj.default_val := Sim.SInt 8501%Z; obj.value := Sim.SInt 8501%Z;
     obj.visibility := "visible"; obj.deprecated := false;
     obj.deprecation_text := None; obj.expiration_date := None;
     obj.where_defined := "<default>" |}.


(** A deprecated option that expires with the year 2022. *)
Definition sunset : obj.OptionObject :=
  {| obj.key := "server.liveSave"; obj.section := "server";
     obj.description := Some "Save on every change.";
     obj.default_val := Sim.SBool false; obj.value := Sim.SBool false;
     obj.visibility := "visible"; obj.deprecated := true;
     obj.deprecation_text := Some "Use server.runOnSave instead.";
     obj.expiration_date := Some "2023-01-01";
     obj.where_defined := "<default>" |}.

(** A hidden deprecated option whose expiration date is no date. *)
Definition hidden_undated : obj.OptionObject :=
  {| obj.key := "server.secret"; obj.section := "server";
     obj.description := None;
     obj.default_val := Sim.SNone; obj.value := Sim.SNone;
     obj.visibility := "hidden"; obj.deprecated := true;
     obj.deprecation_text := None; obj.expiration_date := Some "soon";
     obj.where_defined := "<default>" |}.


Definition objects : dict obj.OptionObject :=
  [("server.port", port); ("server.liveSave", sunset);
   ("server.secret", hidden_undated)].

(** The lines for [objects] in file mode while [sunset] is still listed,
    and once it has expired. *)
Definition lines_before : list string :=
  [ header_line; ""; "[server]"; "";
    "# The port where the server will listen.";
    "# Default: 8501";
    "#port = 8501" ++ nl;
    "# Save on every change.";
    "# Default: false";
    "#";
    "# DEPRECATED.";
    "# Use server.runOnSave instead.";
    "# This option will be removed on or after 2023-01-01.";
    "#";
    "#liveSave = false" ++ nl;
    ""; "[browser]"; "" ].

Definition lines_after : list string :=
  [ header_line; ""; "[server]"; "";
    "# The port where the server will listen.";
    "# Default: 8501";
    "#port = 8501" ++ nl;
    ""; "[browser]"; "" ].

End SimPy.

(** ** Notions used to state further properties *)

(** Every character of [s] is whitespace. *)
Fixpoint all_space (s : string) : bool :=
  match s with
  | EmptyString => true
  | String c s' => is_space c && all_space s'
  end.

(** [sep in s] *)
Fixpoint occurs_in (sep s : string) : bool :=
  prefix sep s
  || match s with
     | EmptyString => false
     | String _ s' => occurs_in sep s'
     end.

(** [s.endswith(c)] for one character [c]. *)
Fixpoint ends_with (c : ascii) (s : string) : bool :=
  match s with
  | EmptyString => false
  | String x s' =>
      match s' with
      | EmptyString => Ascii.eqb x c
      | String _ _ => ends_with c s'
      end
  end.

(** The first character of [s], if any, is not whitespace. *)
Definition starts_with_ink (s : string) : bool :=
  match s with
  | EmptyString => false
  | String c _ => negb (is_space c)
  end.

Section Styling.

Context `{L : Libs}.


(** The lines of one option in the listing: its block when the key has a
    part after its first dot. *)
Definition option_block_of (save_to_file : bool) (o : ConfigOption)
    : list string :=
  match short_key o with
  | Some k => option_block save_to_file k o
  | None => []
  end.

(** The whole list: the header line, then for every section outside
    SKIP_SECTIONS, in the order of the section mapping, the three header
    lines of the section and the lines of the options listed under it, in
    the order of the option mapping. *)
Definition all_lines (section_descriptions : dict string)
    (config_options : dict ConfigOption) (save_to_file : bool)
    : list string :=
  header_line
  :: concat
       (map (fun s =>
               ([""; styled_section save_to_file ("[" ++ s ++ "]"); ""]
                ++ concat
                     (map (option_block_of save_to_file)
                        (filter (listed_under s) (map snd config_options))))%list)
          (filter (fun s => negb (in_skip_sections s))
             (keys section_descriptions))).

End Styling.

(** * Properties *)

(** ** The loops only append, and what they append is the listing *)

Section Refinement.

Context `{L : Libs}.

Lemma appends_out_append (text : string) :
  appends (out_append text) (inr [text]).
Proof. intros out. reflexivity. Qed.

Lemma appends_ret : appends (ret tt) (inr []).
Proof. intros out. unfold outcome, ret. now rewrite app_nil_r. Qed.

Lemma appends_seq (m k : M Out unit) (r1 r2 : lines) :
  appends m r1 -> appends k r2 -> appends (m ;; k) (then_lines r1 r2).
Proof.
  intros Hm Hk out.
  specialize (Hm out). unfold outcome, bind in *.
  destruct (m out) as [[e | u] out1]; destruct r1 as [e1 | l1]; simpl;
    try discriminate.
  - exact Hm.
  - injection Hm as ->.
    specialize (Hk (out ++ l1)%list). unfold outcome in Hk.
    destruct (k (out ++ l1)%list) as [[e | u'] out2];
      destruct r2 as [e2 | l2]; try discriminate; try exact Hk.
    injection Hk as ->. now rewrite app_assoc.
Qed.

Lemma appends_cons (m k : M Out unit) (x : string) (rest : list string) :
  appends m (inr [x]) -> appends k (inr rest) ->
  appends (m ;; k) (inr (x :: rest)).
Proof. intros Hm Hk. exact (appends_seq m k _ _ Hm Hk). Qed.

Lemma appends_for_each {A} (body : A -> M Out unit) (f : A -> lines)
    (l : list A) :
  (forall x, appends (body x) (f x)) ->
  appends (for_each l body) (gather (map f l)).
Proof.
  intros Hbody. induction l as [| x l IH]; simpl.
  - apply appends_ret.
  - apply appends_seq; [apply Hbody | exact IH].
Qed.

Lemma appends_desc (stf : bool) (text : string) :
  appends (append_desc stf text) (inr [styled_desc stf text]).
Proof. destruct stf; apply appends_out_append. Qed.

Lemma appends_comment (stf : bool) (text : string) :
  appends (append_comment stf text) (inr [styled_comment stf text]).
Proof. destruct stf; apply appends_out_append. Qed.

Lemma appends_section (stf : bool) (text : string) :
  appends (append_section stf text) (inr [styled_section stf text]).
Proof. destruct stf; apply appends_out_append. Qed.

Lemma appends_setting (stf : bool) (text : string) :
  appends (append_setting stf text) (inr [styled_setting stf text]).
Proof. destruct stf; apply appends_out_append. Qed.

Lemma gather_filter {A} (p : A -> bool) (g : A -> lines) (l : list A) :
  gather (map (fun x => if p x then g x else inr []) l)
  = gather (map g (filter p l)).
Proof.
  unfold gather.
  induction l as [| x l IH]; simpl; [reflexivity |].
  rewrite IH.
  destruct (p x); simpl; [reflexivity |].
  now destruct (fold_right then_lines (inr []) (map g (filter p l))).
Qed.

(** The paragraphs after the first carry an index other than 0. *)
Lemma appends_later_paragraphs (stf : bool) (ps : list string) (n : nat) :
  appends
    (for_each (combine (seq (S n) (List.length ps)) ps) (fun '(i, txt) =>
       if Nat.eqb i 0 then append_desc stf ("# " ++ txt)
       else append_comment stf ("# " ++ txt)))
    (inr (map (fun txt => styled_comment stf ("# " ++ txt)) ps)).
Proof.
  revert n. induction ps as [| p ps IH]; intros n; simpl.
  - apply appends_ret.
  - apply appends_cons; [apply appends_comment | apply IH].
Qed.

Lemma appends_description (stf : bool) (o : ConfigOption) :
  appends
    (for_each (enumerate (_clean_paragraphs (description o))) (fun '(i, txt) =>
       if Nat.eqb i 0 then append_desc stf ("# " ++ txt)
       else append_comment stf ("# " ++ txt)))
    (inr (description_lines stf o)).
Proof.
  unfold description_lines, enumerate.
  destruct (_clean_paragraphs (description o)) as [| p ps]; simpl.
  - apply appends_ret.
  - apply appends_cons; [apply appends_desc | apply appends_later_paragraphs].
Qed.

Lemma length_pos_is_empty (s : string) :
  Nat.ltb 0 (String.length s) = negb (is_empty s).
Proof. now destruct s. Qed.

Lemma appends_default (stf : bool) (o : ConfigOption) :
  appends
    (if Nat.ltb 0 (String.length (toml_default_of o))
     then append_comment stf ("# Default: " ++ toml_default_of o)
     else ret tt)
    (inr (default_lines stf o)).
Proof.
  unfold default_lines. rewrite length_pos_is_empty.
  destruct (is_empty (toml_default_of o)); simpl;
    [apply appends_ret | apply appends_comment].
Qed.

Lemma appends_deprecation (stf : bool) (o : ConfigOption) :
  appends
    (if deprecated o then
       append_comment stf "#" ;;
       (if negb stf
        then append_comment stf
               ("# " ++ click_style "DEPRECATED." (Some "yellow") None)
        else append_comment stf "# DEPRECATED.") ;;
       append_comment stf
         ("# " ++ join nl (_clean_paragraphs (deprecation_text o))) ;;
       append_comment stf
         ("# This option will be removed on or after "
          ++ expiration_date o ++ ".") ;;
       append_comment stf "#"
     else ret tt)
    (inr (deprecation_lines stf o)).
Proof.
  unfold deprecation_lines, removal_notice.
  destruct (deprecated o); [| apply appends_ret].
  repeat apply appends_cons; try apply appends_comment.
  destruct stf; apply appends_comment.
Qed.

Lemma appends_provenance (stf : bool) (o : ConfigOption) :
  appends
    (if negb (String.eqb (where_defined o) DEFAULT_DEFINITION)
     then append_comment stf
            ("# The value below was set in " ++ where_defined o)
     else ret tt)
    (inr (provenance_lines stf o)).
Proof.
  unfold provenance_lines, is_manually_set.
  destruct (negb (String.eqb (where_defined o) DEFAULT_DEFINITION));
    [apply appends_comment | apply appends_ret].
Qed.

(** The two rewrites of [toml_setting] amount to [setting_text]. *)
Lemma setting_text_rewrites (k : string) (o : ConfigOption) :
  (let toml_setting := toml_dumps k (value o) in
   let toml_setting :=
     if negb (Nat.eqb (String.length toml_setting) 0)
        && negb (negb (String.eqb (where_defined o) DEFAULT_DEFINITION))
     then "#" ++ toml_setting else toml_setting in
   if Nat.eqb (String.length toml_setting) 0
   then "#" ++ k ++ " =" ++ nl else toml_setting)
  = setting_text k o.
Proof.
  unfold setting_text, is_manually_set. cbv zeta.
  destruct (toml_dumps k (value o)) as [| c t] eqn:E; simpl.
  - reflexivity.
  - now destruct (String.eqb (where_defined o) DEFAULT_DEFINITION).
Qed.

Lemma appends_emit_option (stf : bool) (o : ConfigOption) :
  appends (emit_option stf o) (option_lines stf o).
Proof.
  unfold emit_option, option_lines, option_block, short_key, getindex.
  destruct (nth_error (split "." (key o)) 1) as [k |].
  - intros out. unfold outcome, bind at 1, ret at 1.
    pose proof (setting_text_rewrites k o) as Hset. cbv zeta in Hset.
    cbv zeta. rewrite Hset.
    revert out.
    change (appends
      (for_each (enumerate (_clean_paragraphs (description o)))
         (fun '(i, txt) =>
            if Nat.eqb i 0 then append_desc stf ("# " ++ txt)
            else append_comment stf ("# " ++ txt)) ;;
       (if Nat.ltb 0 (String.length (toml_default_of o))
        then append_comment stf ("# Default: " ++ toml_default_of o)
        else ret tt) ;;
       (if deprecated o then
          append_comment stf "#" ;;
          (if negb stf
           then append_comment stf
                  ("# " ++ click_style "DEPRECATED." (Some "yellow") None)
           else append_comment stf "# DEPRECATED.") ;;
          append_comment stf
            ("# " ++ join nl (_clean_paragraphs (deprecation_text o))) ;;
          append_comment stf
            ("# This option will be removed on or after "
             ++ expiration_date o ++ ".") ;;
          append_comment stf "#"
        else ret tt) ;;
       (if negb (String.eqb (where_defined o) DEFAULT_DEFINITION)
        then append_comment stf
               ("# The value below was set in " ++ where_defined o)
        else ret tt) ;;
       append_setting stf (setting_text k o))
      (then_lines (inr (description_lines stf o))
         (then_lines (inr (default_lines stf o))
            (then_lines (inr (deprecation_lines stf o))
               (then_lines (inr (provenance_lines stf o))
                  (inr [styled_setting stf (setting_text k o)])))))).
    repeat apply appends_seq.
    + apply appends_description.
    + apply appends_default.
    + apply appends_deprecation.
    + apply appends_provenance.
    + apply appends_setting.
  - intros out. reflexivity.
Qed.

Lemma then_lines_cons (x : string) (l : list string) (r : lines) :
  then_lines (inr (x :: l)) r = then_lines (inr [x]) (then_lines (inr l) r).
Proof. now destruct r. Qed.

Lemma appends_option_step (stf : bool) (section : string)
    (item : string * ConfigOption) :
  appends (option_step stf section item)
    (if listed_under section (snd item) then option_lines stf (snd item)
     else inr []).
Proof.
  destruct item as [name o]. unfold option_step, listed_under. simpl.
  destruct (String.eqb (config_option.section o) section); simpl;
    [| apply appends_ret].
  destruct (String.eqb (visibility o) "hidden"); simpl;
    [apply appends_ret |].
  destruct (is_expired o); simpl;
    [apply appends_ret | apply appends_emit_option].
Qed.

Lemma appends_option_loop (stf : bool) (section : string)
    (config_options : dict ConfigOption) :
  appends (for_each config_options (option_step stf section))
    (gather (map (option_lines stf)
               (filter (listed_under section) (map snd config_options)))).
Proof.
  assert (E : gather (map (option_lines stf)
                (filter (listed_under section) (map snd config_options)))
              = gather (map (fun item : string * ConfigOption =>
                  if listed_under section (snd item)
                  then option_lines stf (snd item) else inr [])
                  config_options)).
  { rewrite <- (gather_filter (listed_under section) (option_lines stf)).
    now rewrite map_map. }
  rewrite E. apply appends_for_each. intros item.
  apply appends_option_step.
Qed.

Lemma appends_section_step (stf : bool) (config_options : dict ConfigOption)
    (item : string * string) :
  appends (section_step stf config_options item)
    (if negb (in_skip_sections (fst item))
     then section_block stf config_options (fst item) else inr []).
Proof.
  destruct item as [section section_description].
  unfold section_step, section_block, section_header. simpl fst.
  destruct (in_skip_sections section); simpl negb; cbv iota;
    [apply appends_ret |].
  rewrite (then_lines_cons "" [_; ""]), (then_lines_cons _ [""]).
  apply appends_seq; [apply appends_out_append |].
  apply appends_seq; [apply appends_section |].
  apply appends_seq; [apply appends_out_append |].
  apply appends_option_loop.
Qed.

Lemma clean_header_text : _clean header_text = header_line.
Proof. vm_compute. reflexivity. Qed.

Lemma appends_fill_out (section_descriptions : dict string)
    (config_options : dict ConfigOption) (stf : bool) :
  appends (fill_out section_descriptions config_options stf)
    (listing section_descriptions config_options stf).
Proof.
  unfold fill_out, listing, listed_sections, keys.
  rewrite clean_header_text.
  apply appends_seq; [apply appends_out_append |].
  rewrite <- (gather_filter (fun s => negb (in_skip_sections s))
                (section_block stf config_options)).
  rewrite map_map.
  apply appends_for_each. intros item. apply appends_section_step.
Qed.

Context `{F : FileLayer}.

(** The fresh buffer holds exactly the listing when filling is over. *)
Lemma with_fresh_out_fill (section_descriptions : dict string)
    (config_options : dict ConfigOption) (stf : bool) (w : World) :
  with_fresh_out (fill_out section_descriptions config_options stf) w
  = (listing section_descriptions config_options stf, w).
Proof.
  pose proof (appends_fill_out section_descriptions config_options stf [])
    as H.
  unfold with_fresh_out. unfold outcome in H.
  destruct (fill_out section_descriptions config_options stf [])
    as [[e | u] out];
    destruct (listing section_descriptions config_options stf) as [e' | l];
    try discriminate; simpl in H; injection H as ->; reflexivity.
Qed.

(** [generate_config] is the listing followed, in file mode, by the file
    step. *)
Lemma generate_config_unfold (section_descriptions : dict string)
    (config_options : dict ConfigOption) (stf : bool) (w : World) :
  generate_config section_descriptions config_options stf w
  = match listing section_descriptions config_options stf with
    | inl e => (inl e, w)
    | inr out =>
        if stf then
          match save_step out w with
          | (inl e, w') => (inl e, w')
          | (inr _, w') => (inr out, w')
          end
        else (inr out, w)
    end.
Proof.
  unfold generate_config, bind at 1. rewrite with_fresh_out_fill.
  destruct (listing section_descriptions config_options stf) as [e | out];
    [reflexivity |].
  destruct stf; [| reflexivity].
  unfold bind, save_step, ret.
  now destruct (with_as _ _ w) as [[e | u] w'].
Qed.

End Refinement.

(** ** The shape of a listing that was returned *)

Section Shape.

Context `{L : Libs}.

Lemma then_lines_inr_inv (r1 r2 : lines) (out : list string) :
  then_lines r1 r2 = inr out ->
  exists l1 l2, r1 = inr l1 /\ r2 = inr l2 /\ out = (l1 ++ l2)%list.
Proof.
  destruct r1 as [e1 | l1]; [discriminate |].
  destruct r2 as [e2 | l2]; [discriminate |].
  simpl. intros [= <-]. now exists l1, l2.
Qed.

Lemma gather_blocks {A} (f : A -> lines) (l : list A) (out : list string) :
  gather (map f l) = inr out ->
  exists blocks,
    out = concat blocks /\ Forall2 (fun x b => f x = inr b) l blocks.
Proof.
  revert out. induction l as [| x l IH]; intros out H.
  - injection H as <-. exists []. split; [reflexivity | constructor].
  - apply then_lines_inr_inv in H as (b & rest & Hb & Hrest & ->).
    destruct (IH rest Hrest) as (blocks & -> & Hall).
    exists (b :: blocks). split; [reflexivity | now constructor].
Qed.

Lemma gather_member {A} (f : A -> lines) (l : list A) (out : list string)
    (x : A) :
  gather (map f l) = inr out -> In x l ->
  exists b pre post, f x = inr b /\ out = (pre ++ b ++ post)%list.
Proof.
  revert out. induction l as [| y l IH]; intros out H Hin; [easy |].
  apply then_lines_inr_inv in H as (b & rest & Hb & Hrest & ->).
  destruct Hin as [-> | Hin].
  - now exists b, [], rest.
  - destruct (IH rest Hrest Hin) as (b' & pre & post & Hb' & ->).
    exists b', (b ++ pre)%list, post. split; [exact Hb' |].
    now rewrite <- app_assoc.
Qed.

Lemma gather_total {A} (f : A -> lines) (l : list A) :
  (forall x, In x l -> exists b, f x = inr b) ->
  exists out, gather (map f l) = inr out.
Proof.
  induction l as [| x l IH]; intros H.
  - now exists [].
  - destruct (H x (or_introl eq_refl)) as [b Hb].
    destruct IH as [rest Hrest]; [intros y Hy; apply H; now right |].
    exists (b ++ rest)%list. unfold gather in *. simpl.
    now rewrite Hb, Hrest.
Qed.

Lemma gather_ext {A} (f g : A -> lines) (l : list A) :
  (forall x, In x l -> f x = g x) ->
  gather (map f l) = gather (map g l).
Proof.
  intros H. f_equal. now apply map_ext_in.
Qed.

Lemma option_lines_raises (stf : bool) (o : ConfigOption) (e : exn) :
  option_lines stf o = inl e -> e = IndexError.
Proof.
  unfold option_lines. destruct (short_key o); [discriminate |].
  now intros [= <-].
Qed.

Lemma option_lines_short_key (stf : bool) (o : ConfigOption)
    (b : list string) :
  option_lines stf o = inr b ->
  exists k, short_key o = Some k /\ b = option_block stf k o.
Proof.
  unfold option_lines. destruct (short_key o) as [k |]; [| discriminate].
  intros [= <-]. now exists k.
Qed.

Lemma is_listed_section (sd : dict string) (o : ConfigOption) :
  is_listed sd o = true ->
  In (section o) (listed_sections sd) /\ listed_under (section o) o = true.
Proof.
  unfold is_listed. rewrite existsb_exists. intros (s & Hs & Hu).
  assert (E : section o = s).
  { unfold listed_under in Hu.
    apply andb_prop in Hu as [Hu _]. apply andb_prop in Hu as [Hu _].
    now apply String.eqb_eq. }
  now rewrite E.
Qed.

Lemma listing_inv (sd : dict string) (opts : dict ConfigOption) (stf : bool)
    (out : list string) :
  listing sd opts stf = inr out ->
  exists rest,
    out = header_line :: rest
    /\ gather (map (section_block stf opts) (listed_sections sd)) = inr rest.
Proof.
  unfold listing. intros H.
  apply then_lines_inr_inv in H as (l1 & rest & [= <-] & Hrest & ->).
  now exists rest.
Qed.

Lemma section_block_inv (stf : bool) (opts : dict ConfigOption)
    (s : string) (b : list string) :
  section_block stf opts s = inr b ->
  exists body,
    b = (section_header stf s ++ body)%list
    /\ gather (map (option_lines stf)
                 (filter (listed_under s) (map snd opts))) = inr body.
Proof.
  unfold section_block. intros H.
  apply then_lines_inr_inv in H as (l1 & body & [= <-] & Hbody & ->).
  now exists body.
Qed.

(** A listed option has its block in the listing, after the header of its
    section. *)
Lemma listed_option_block (sd : dict string) (opts : dict ConfigOption)
    (stf : bool) (out : list string) (name : string) (o : ConfigOption) :
  listing sd opts stf = inr out ->
  In (name, o) opts -> is_listed sd o = true ->
  exists k pre mid post,
    short_key o = Some k
    /\ out = (pre ++ section_header stf (section o) ++ mid
              ++ option_block stf k o ++ post)%list.
Proof.
  intros Hl Hin Hlisted.
  apply listing_inv in Hl as (rest & -> & Hrest).
  apply is_listed_section in Hlisted as [Hs Hu].
  destruct (gather_member _ _ _ _ Hrest Hs)
    as (b & pre & post & Hb & ->).
  apply section_block_inv in Hb as (body & -> & Hbody).
  assert (Ho : In o (filter (listed_under (section o)) (map snd opts))).
  { apply filter_In. split; [| exact Hu].
    apply in_map_iff. now exists (name, o). }
  destruct (gather_member _ _ _ _ Hbody Ho)
    as (ob & pre' & post' & Hob & ->).
  apply option_lines_short_key in Hob as (k & Hk & ->).
  exists k, (header_line :: pre), pre', (post' ++ post)%list.
  split; [exact Hk |].
  simpl. f_equal. now rewrite <- !app_assoc.
Qed.

Lemma listing_total (sd : dict string) (opts : dict ConfigOption)
    (stf : bool) :
  (forall item, In item opts -> is_listed sd (snd item) = true ->
     has_short_key (snd item) = true) ->
  exists out, listing sd opts stf = inr out.
Proof.
  intros H.
  assert (Hblocks : exists rest,
            gather (map (section_block stf opts) (listed_sections sd))
            = inr rest).
  { apply gather_total. intros s Hs.
    destruct (gather_total (option_lines stf)
                (filter (listed_under s) (map snd opts))) as [body Hbody].
    - intros o Ho. apply filter_In in Ho as [Ho Hu].
      apply in_map_iff in Ho as (item & <- & Hitem).
      assert (Hk : has_short_key (snd item) = true).
      { apply H; [exact Hitem |].
        unfold is_listed. apply existsb_exists. now exists s. }
      unfold has_short_key in Hk. unfold option_lines.
      destruct (short_key (snd item)) as [k |]; [| discriminate].
      now eexists.
    - unfold section_block. rewrite Hbody. now eexists. }
  destruct Hblocks as [rest Hrest].
  exists (header_line :: rest). unfold listing. now rewrite Hrest.
Qed.

Lemma listing_raises (sd : dict string) (opts : dict ConfigOption)
    (stf : bool) (e : exn) :
  listing sd opts stf = inl e -> e = IndexError.
Proof.
  unfold listing.
  destruct (gather (map (section_block stf opts) (listed_sections sd)))
    as [e' | rest] eqn:E; [| discriminate].
  simpl. intros [= <-].
  assert (G : forall (A : Type) (f : A -> lines) (l : list A) (e0 : exn),
            (forall y e1, f y = inl e1 -> e1 = IndexError) ->
            gather (map f l) = inl e0 -> e0 = IndexError).
  { intros A f l e0 Hf. induction l as [| y l IH]; [discriminate |].
    unfold gather in *. simpl.
    destruct (f y) as [e1 | b] eqn:Ey.
    - simpl. intros [= <-]. now apply (Hf y).
    - destruct (fold_right then_lines (inr []) (map f l)) as [e2 | r];
        [| discriminate].
      simpl. intros [= <-]. now apply IH. }
  apply (G _ _ _ _) in E; [exact E |].
  intros s e1. unfold section_block.
  destruct (gather (map (option_lines stf)
              (filter (listed_under s) (map snd opts))))
    as [e2 | body] eqn:E2; [| discriminate].
  simpl. intros [= <-].
  apply (G _ _ _ _) in E2; [exact E2 |].
  intros o e3. apply option_lines_raises.
Qed.

Context `{F : FileLayer}.

Lemma generate_config_returns (sd : dict string) (opts : dict ConfigOption)
    (stf : bool) (w : World) (out : list string) :
  fst (generate_config sd opts stf w) = inr out ->
  listing sd opts stf = inr out.
Proof.
  rewrite generate_config_unfold.
  destruct (listing sd opts stf) as [e | l]; [discriminate |].
  destruct stf.
  - destruct (save_step l w) as [[e | u] w']; [discriminate |].
    simpl. now intros [= <-].
  - simpl. now intros [= <-].
Qed.

End Shape.

(** ** Options that are passed over *)

Section Skipping.

Context `{L : Libs} `{F : FileLayer}.

Lemma listed_section_not_test (sd : dict string) (s : string) :
  In s (listed_sections sd) -> String.eqb s "_test" = false.
Proof.
  unfold listed_sections. rewrite filter_In. intros [_ H].
  unfold in_skip_sections in H. simpl in H.
  now destruct (String.eqb s "_test").
Qed.

Lemma listed_section_in_keys (sd : dict string) (s : string) :
  In s (listed_sections sd) -> In s (keys sd).
Proof. unfold listed_sections. rewrite filter_In. now intros [H _]. Qed.

Lemma skipped_not_listed_under (sd : dict string) (s : string)
    (o : ConfigOption) :
  In s (listed_sections sd) -> is_skipped o = true ->
  listed_under s o = false.
Proof.
  intros Hs Hskip. apply listed_section_not_test in Hs.
  unfold is_skipped in Hskip. unfold listed_under.
  destruct (String.eqb (visibility o) "hidden");
    [now rewrite andb_false_r |].
  destruct (is_expired o); [now rewrite andb_false_r |].
  simpl in Hskip. apply String.eqb_eq in Hskip.
  rewrite Hskip, String.eqb_sym, Hs. reflexivity.
Qed.

Lemma filter_listed_under_filter (keep : ConfigOption -> bool) (s : string)
    (opts : dict ConfigOption) :
  (forall o, listed_under s o = true -> keep o = true) ->
  filter (listed_under s)
    (map snd (filter (fun item => keep (snd item)) opts))
  = filter (listed_under s) (map snd opts).
Proof.
  intros H. induction opts as [| [name o] opts IH]; [reflexivity |].
  simpl. destruct (keep o) eqn:Ek; simpl.
  - now rewrite IH.
  - rewrite IH. destruct (listed_under s o) eqn:El; [| reflexivity].
    apply H in El. congruence.
Qed.

(** Options that no listed section lists can be dropped from the mapping. *)
Lemma listing_filter (keep : ConfigOption -> bool) (sd : dict string)
    (opts : dict ConfigOption) (stf : bool) :
  (forall s o, In s (listed_sections sd) -> listed_under s o = true ->
     keep o = true) ->
  listing sd (filter (fun item => keep (snd item)) opts) stf
  = listing sd opts stf.
Proof.
  intros H. unfold listing. f_equal. apply gather_ext. intros s Hs.
  unfold section_block. do 3 f_equal.
  apply filter_listed_under_filter. intros o. now apply H.
Qed.

(** Two calls with the same listing behave alike on every world. *)
Lemma generate_config_ext (sd sd' : dict string)
    (opts opts' : dict ConfigOption) (stf : bool) (w : World) :
  listing sd opts stf = listing sd' opts' stf ->
  generate_config sd opts stf w = generate_config sd' opts' stf w.
Proof. intros H. rewrite !generate_config_unfold. now rewrite H. Qed.

(** C1: the options that are hidden, expired or of the section "_test" are
    skipped entirely: taking them out of the option mapping changes neither
    the lines [generate_config] returns nor what it does to the world, and
    no such option is among the listed ones. *)
Theorem skipped_options_leave_no_trace (sd : dict string)
    (opts : dict ConfigOption) (stf : bool) (w : World) :
  generate_config sd opts stf w
  = generate_config sd
      (filter (fun item => negb (is_skipped (snd item))) opts) stf w
  /\ forall o, is_skipped o && is_listed sd o = false.
Proof.
  split.
  - apply generate_config_ext. symmetry.
    apply (listing_filter (fun o => negb (is_skipped o))).
    intros s o Hs Hu. destruct (is_skipped o) eqn:E; [| reflexivity].
    rewrite (skipped_not_listed_under sd s o Hs E) in Hu. discriminate.
  - intros o. destruct (is_skipped o) eqn:E; [| reflexivity].
    simpl. unfold is_listed.
    destruct (existsb (fun s => listed_under s o) (listed_sections sd))
      eqn:Ex; [| reflexivity].
    apply existsb_exists in Ex as (s & Hs & Hu).
    rewrite (skipped_not_listed_under sd s o Hs E) in Hu. discriminate.
Qed.

(** C5: the returned list is the header followed by one block per section
    of the mapping that is not in SKIP_SECTIONS, in the mapping's order;
    the block of a section is its three header lines followed by the
    blocks of the options listed under that very section, in the option
    mapping's order.  An option whose section is no key of the section
    mapping is not listed, and can be taken out of the option mapping
    without any change. *)
Theorem sections_group_options (sd : dict string) (opts : dict ConfigOption)
    (stf : bool) (w : World) (out : list string) :
  fst (generate_config sd opts stf w) = inr out ->
  (exists blocks,
     out = header_line :: concat blocks
     /\ Forall2
          (fun s block =>
             exists option_blocks,
               block = ([""; styled_section stf ("[" ++ s ++ "]"); ""]
                        ++ concat option_blocks)%list
               /\ Forall2 (fun o b => option_lines stf o = inr b)
                    (filter (listed_under s) (map snd opts)) option_blocks)
          (filter (fun s => negb (in_skip_sections s)) (keys sd)) blocks)
  /\ (forall w',
        generate_config sd
          (filter (fun item =>
                     existsb (String.eqb (section (snd item))) (keys sd))
             opts) stf w'
        = generate_config sd opts stf w')
  /\ (forall o, existsb (String.eqb (section o)) (keys sd) = false ->
        is_listed sd o = false).
Proof.
  intros Hret. apply generate_config_returns in Hret.
  assert (Hkeys : forall s o, In s (listed_sections sd) ->
            listed_under s o = true ->
            existsb (String.eqb (section o)) (keys sd) = true).
  { intros s o Hs Hu. apply existsb_exists. exists s.
    split; [now apply listed_section_in_keys |].
    unfold listed_under in Hu.
    apply andb_prop in Hu as [Hu _]. now apply andb_prop in Hu as [Hu _]. }
  split; [| split].
  - apply listing_inv in Hret as (rest & -> & Hrest).
    apply gather_blocks in Hrest as (blocks & -> & Hall).
    exists blocks. split; [reflexivity |].
    eapply Forall2_impl; [| exact Hall].
    intros s b Hb. apply section_block_inv in Hb as (body & -> & Hbody).
    apply gather_blocks in Hbody as (obs & -> & Hobs).
    now exists obs.
  - intros w'. apply generate_config_ext.
    apply (listing_filter
             (fun o => existsb (String.eqb (section o)) (keys sd))).
    exact Hkeys.
  - intros o Hno. unfold is_listed.
    destruct (existsb (fun s => listed_under s o) (listed_sections sd))
      eqn:Ex; [| reflexivity].
    apply existsb_exists in Ex as (s & Hs & Hu).
    rewrite (Hkeys s o Hs Hu) in Hno. discriminate.
Qed.

(** C10: whenever [generate_config] returns, the first line is the fixed
    header comment; with an empty section mapping the list is that line
    alone, and in terminal mode it is returned on every world. *)
Theorem header_comes_first (sd : dict string) (opts : dict ConfigOption)
    (stf : bool) (w : World) (out : list string) :
  fst (generate_config sd opts stf w) = inr out ->
  hd_error out
  = Some "# Below are all the sections and options you can have in ~/.streamlit/config.toml."
  /\ (sd = [] ->
      out = ["# Below are all the sections and options you can have in ~/.streamlit/config.toml."])
  /\ generate_config [] opts false w
     = (inr ["# Below are all the sections and options you can have in ~/.streamlit/config.toml."], w).
Proof.
  intros Hret. apply generate_config_returns in Hret.
  split; [| split].
  - apply listing_inv in Hret as (rest & -> & _). reflexivity.
  - intros ->. now injection Hret as <-.
  - now rewrite generate_config_unfold.
Qed.

End Skipping.

(** ** Effects, determinism and failures *)

Section Effects.

Context `{L : Libs} `{F : FileLayer}.

(** C3: in terminal mode [generate_config] returns the listing and leaves
    the world as it found it, and [show_config] echoes the joined lines.
    In file mode, once the lines [out] are there, the file layer is asked,
    in this order and for nothing else: to open "config.toml" with
    [project=True]; on the file it answers with, to write the lines joined
    by line feeds; then to echo "Wrote config file to " and the name of
    the file; then to leave the [with] block, with the exception of the
    write or the echo in flight if one of them raised.  The call returns
    [out] when the block is left without an exception and raises what the
    file layer raised otherwise; when the file cannot be opened nothing
    is written.  A listing that could not be built touches no file. *)
Theorem file_effect_only_when_saving (sd : dict string)
    (opts : dict ConfigOption) (w : World) :
  generate_config sd opts false w = (listing sd opts false, w)
  /\ show_config sd opts w
     = match listing sd opts false with
       | inl e => (inl e, w)
       | inr out => click_echo (join nl out) w
       end
  /\ match listing sd opts true with
     | inl e => generate_config sd opts true w = (inl e, w)
     | inr out =>
         match streamlit_write "config.toml" true w with
         | (inl e, w1) => generate_config sd opts true w = (inl e, w1)
         | (inr f, w1) =>
             match file_write f (join nl out) w1 with
             | (inl e, w2) =>
                 generate_config sd opts true w
                 = match streamlit_exit f (Some e) w2 with
                   | (Some e', w3) => (inl e', w3)
                   | (None, w3) => (inr out, w3)
                   end
             | (inr _, w2) =>
                 match
                   click_echo ("Wrote config file to " ++ file_name f) w2
                 with
                 | (inl e, w3) =>
                     generate_config sd opts true w
                     = match streamlit_exit f (Some e) w3 with
                       | (Some e', w4) => (inl e', w4)
                       | (None, w4) => (inr out, w4)
                       end
                 | (inr _, w3) =>
                     generate_config sd opts true w
                     = match streamlit_exit f None w3 with
                       | (Some e', w4) => (inl e', w4)
                       | (None, w4) => (inr out, w4)
                       end
                 end
             end
         end
     end.
Proof.
  split; [| split].
  - rewrite generate_config_unfold.
    now destruct (listing sd opts false).
  - unfold show_config, bind. rewrite generate_config_unfold.
    now destruct (listing sd opts false).
  - rewrite generate_config_unfold.
    destruct (listing sd opts true) as [e | out]; [reflexivity |].
    unfold save_step, with_as, bind.
    destruct (streamlit_write "config.toml" true w) as [[e | f] w1];
      [reflexivity |].
    destruct (file_write f (join nl out) w1) as [[e | u] w2].
    + now destruct (streamlit_exit f (Some e) w2) as [[e' |] w3].
    + destruct (click_echo ("Wrote config file to " ++ file_name f) w2)
        as [[e | u'] w3].
      * now destruct (streamlit_exit f (Some e) w3) as [[e' |] w4].
      * now destruct (streamlit_exit f None w3) as [[e' |] w4].
Qed.

End Effects.

(** ** The lines of a listed option *)

Section OptionLines.

Context `{L : Libs} `{F : FileLayer}.

Lemma split_from_not_nil (sep : string) (s cur : string) (skip : nat) :
  split_from sep skip cur s <> [].
Proof.
  revert cur skip.
  induction s as [| c s IH]; intros cur skip; cbn [split_from].
  - discriminate.
  - destruct skip; [| apply IH].
    destruct (prefix sep (String c s)); [discriminate | apply IH].
Qed.

(** A text always has a first paragraph. *)
Lemma clean_paragraphs_not_nil (txt : string) : _clean_paragraphs txt <> [].
Proof.
  unfold _clean_paragraphs, split.
  pose proof (split_from_not_nil (nl ++ nl) txt EmptyString 0) as H.
  now destruct (split_from (nl ++ nl) 0 EmptyString txt).
Qed.

(** *** [_clean] normalises whitespace *)

Lemma no_space_snoc (cur : string) (c : ascii) :
  no_space (snoc cur c) = no_space cur && negb (is_space c).
Proof.
  unfold snoc. induction cur as [| a cur IH]; simpl.
  - now rewrite andb_true_r.
  - rewrite IH. now rewrite andb_assoc.
Qed.

Lemma split_ws_from_words (cur s : string) :
  no_space cur = true -> forallb is_word (split_ws_from cur s) = true.
Proof.
  revert cur. induction s as [| c s IH]; intros cur Hcur; simpl.
  - unfold is_word. destruct (is_empty cur) eqn:E; simpl; [reflexivity |].
    now rewrite E, Hcur.
  - destruct (is_space c) eqn:Ec.
    + destruct (is_empty cur) eqn:E; simpl.
      * now apply IH.
      * unfold is_word at 1. rewrite E, Hcur. simpl. now apply IH.
    + apply IH. rewrite no_space_snoc, Hcur, Ec. reflexivity.
Qed.

Lemma rstrip_word (w : string) : no_space w = true -> rstrip w = w.
Proof.
  induction w as [| c w IH]; simpl; [reflexivity |].
  intros H. apply andb_prop in H as [Hc Hw].
  rewrite (IH Hw). apply negb_true_iff in Hc. rewrite Hc.
  now rewrite andb_false_r.
Qed.

Lemma append_assoc (a b c : string) : a ++ (b ++ c) = (a ++ b) ++ c.
Proof. induction a as [| x a IH]; simpl; [reflexivity | now rewrite IH]. Qed.

Lemma rstrip_append (a b : string) :
  rstrip b = b -> is_empty b = false -> rstrip (a ++ b) = a ++ b.
Proof.
  intros Hb Hne. induction a as [| c a IH]; simpl; [exact Hb |].
  rewrite IH. now destruct a; destruct b.
Qed.

Lemma join_words_not_empty (w : string) (ws : list string) :
  is_word w = true -> is_empty (join " " (w :: ws)) = false.
Proof.
  unfold is_word. destruct w as [| c w]; [discriminate |].
  intros _. now destruct ws.
Qed.

Lemma rstrip_join_words (ws : list string) :
  forallb is_word ws = true -> rstrip (join " " ws) = join " " ws.
Proof.
  induction ws as [| w ws IH]; [reflexivity |].
  intros H. simpl in H. apply andb_prop in H as [Hw Hws].
  destruct ws as [| w2 ws].
  - simpl. apply rstrip_word. unfold is_word in Hw.
    now apply andb_prop in Hw as [_ Hw].
  - change (join " " (w :: w2 :: ws))
      with (w ++ (" " ++ join " " (w2 :: ws))).
    rewrite append_assoc. apply rstrip_append; [now apply IH |].
    simpl in Hws. apply andb_prop in Hws as [Hw2 _].
    now apply join_words_not_empty.
Qed.

Lemma lstrip_join_words (ws : list string) :
  forallb is_word ws = true -> lstrip (join " " ws) = join " " ws.
Proof.
  destruct ws as [| w ws]; [reflexivity |].
  intros H. simpl in H. apply andb_prop in H as [Hw _].
  unfold is_word in Hw. destruct w as [| c w]; [discriminate |].
  simpl in Hw. apply andb_prop in Hw as [Hc _].
  apply negb_true_iff in Hc.
  destruct ws as [| w2 ws]; simpl; now rewrite Hc.
Qed.

Lemma clean_normalised (txt : string) : normalised (_clean txt).
Proof.
  exists (split_ws txt).
  assert (H : forallb is_word (split_ws txt) = true)
    by now apply split_ws_from_words.
  split; [exact H |].
  unfold _clean, strip. rewrite (lstrip_join_words _ H).
  now apply rstrip_join_words.
Qed.

Lemma clean_paragraphs_normalised (txt : string) :
  Forall normalised (_clean_paragraphs txt).
Proof.
  unfold _clean_paragraphs. apply Forall_map.
  apply Forall_forall. intros p _. apply clean_normalised.
Qed.

Lemma gather_concat {A} (f : A -> lines) (g : A -> list string)
    (l : list A) (out : list string) :
  gather (map f l) = inr out ->
  (forall x b, In x l -> f x = inr b -> b = g x) ->
  out = concat (map g l).
Proof.
  revert out. induction l as [| x l IH]; intros out E H.
  - now injection E as <-.
  - apply then_lines_inr_inv in E as (b & rest & Hb & Hrest & ->).
    simpl. rewrite (H x b (or_introl eq_refl) Hb). f_equal.
    apply IH; [exact Hrest |]. intros y c Hy. apply H. now right.
Qed.

(** A listing that was returned is [all_lines]. *)
Lemma listing_all_lines (sd : dict string) (opts : dict ConfigOption)
    (stf : bool) (out : list string) :
  listing sd opts stf = inr out -> out = all_lines sd opts stf.
Proof.
  intros E. apply listing_inv in E as (rest & -> & G).
  unfold all_lines. f_equal.
  apply (gather_concat _ _ _ _ G). intros s b _ Hb.
  apply section_block_inv in Hb as (body & -> & Hbody).
  unfold section_header. f_equal.
  apply (gather_concat _ _ _ _ Hbody). intros o c _ Hc.
  apply option_lines_short_key in Hc as (k & Hk & ->).
  unfold option_block_of. now rewrite Hk.
Qed.

(** C4, amended: the returned list is the header line followed, section
    by section, by the section header lines and the blocks of the options
    listed under the section, and the block of a listed option is, in this
    order and with nothing else in it: one comment line per paragraph of
    the description, each paragraph whitespace-normalised (the first line
    in the description style); the line "# Default: ..." when the TOML
    text of the default value is not empty, and no line in its place when
    it is empty; the five deprecation lines when the option is deprecated;
    the comment naming where the value was set when it was set by hand;
    and the setting line, which is the TOML text of the current value
    under the short key, with "#" in front unless the option was set by
    hand, or "#key =" followed by a line feed when that TOML text is
    empty.  Every line is bare in file mode and passed through
    [click.style] in terminal mode. *)
Theorem listed_option_lines (sd : dict string) (opts : dict ConfigOption)
    (stf : bool) (w : World) (out : list string) (name : string)
    (o : ConfigOption) :
  fst (generate_config sd opts stf w) = inr out ->
  In (name, o) opts -> is_listed sd o = true ->
  out = all_lines sd opts stf
  /\ (exists pre post, out = (pre ++ option_block_of stf o ++ post)%list)
  /\ exists k p ps,
       nth_error (split "." (key o)) 1 = Some k
       /\ _clean_paragraphs (description o) = p :: ps
       /\ Forall normalised (p :: ps)
       /\ let d := strip (drop 10 (toml_dumps "default" (default_val o))) in
          let t := toml_dumps k (value o) in
          option_block_of stf o
          = (styled_desc stf ("# " ++ p)
             :: map (fun txt => styled_comment stf ("# " ++ txt)) ps
             ++ (if is_empty d then []
                 else [styled_comment stf ("# Default: " ++ d)])
             ++ (if deprecated o
                 then [ styled_comment stf "#";
                        styled_comment stf
                          (if stf then "# DEPRECATED."
                           else "# " ++ click_style "DEPRECATED."
                                          (Some "yellow") None);
                        styled_comment stf
                          ("# " ++ join nl
                                     (_clean_paragraphs (deprecation_text o)));
                        styled_comment stf
                          ("# This option will be removed on or after "
                           ++ expiration_date o ++ ".");
                        styled_comment stf "#" ]
                 else [])
             ++ (if String.eqb (where_defined o) DEFAULT_DEFINITION then []
                 else [styled_comment stf
                         ("# The value below was set in "
                          ++ where_defined o)])
             ++ [styled_setting stf
                   (if is_empty t then "#" ++ k ++ " =" ++ nl
                    else if String.eqb (where_defined o) DEFAULT_DEFINITION
                         then "#" ++ t else t)])%list.
Proof.
  intros Hret Hin Hl. apply generate_config_returns in Hret.
  split; [now apply listing_all_lines |].
  destruct (listed_option_block sd opts stf out name o Hret Hin Hl)
    as (k & pre & mid & post & Hk & ->).
  assert (Hblock : option_block_of stf o = option_block stf k o)
    by (unfold option_block_of; now rewrite Hk).
  split.
  - exists (pre ++ section_header stf (section o) ++ mid)%list, post.
    rewrite Hblock. now rewrite <- !app_assoc.
  - destruct (_clean_paragraphs (description o)) as [| p ps] eqn:Ep;
      [now apply clean_paragraphs_not_nil in Ep |].
    exists k, p, ps.
    split; [exact Hk |]. split; [reflexivity |].
    split; [rewrite <- Ep; apply clean_paragraphs_normalised |].
    cbv zeta. rewrite Hblock.
    unfold option_block, description_lines, default_lines, toml_default_of,
      deprecation_lines, removal_notice, provenance_lines, setting_text,
      is_manually_set.
    rewrite Ep.
    destruct (String.eqb (where_defined o) DEFAULT_DEFINITION); simpl negb;
      cbv iota; reflexivity.
Qed.

(** C9, amended: take a listed option whose TOML text [t] of the current
    value under the short key is not empty and, as [toml.dumps] writes it,
    does not start with "#".  The text of its setting line is "#" followed
    by [t] when the option has its default provenance and [t] itself when
    it was set by hand, so this text starts with "#" exactly when the
    option was not set by hand.  The setting line is the last line of the
    option's block; in file mode it is that text, in terminal mode it is
    that text passed through [click.style] with [fg="green"].  When the
    option was set by hand the line before it is the comment naming where
    it was set, and without it there is no such comment. *)
Theorem setting_commented_unless_manual (sd : dict string)
    (opts : dict ConfigOption) (stf : bool) (w : World) (out : list string)
    (name : string) (o : ConfigOption) (k : string) :
  fst (generate_config sd opts stf w) = inr out ->
  In (name, o) opts -> is_listed sd o = true ->
  nth_error (split "." (key o)) 1 = Some k ->
  is_empty (toml_dumps k (value o)) = false ->
  prefix "#" (toml_dumps k (value o)) = false ->
  let t := toml_dumps k (value o) in
  let text :=
    if String.eqb (where_defined o) DEFAULT_DEFINITION then "#" ++ t else t in
  let line :=
    if stf then text else click_style text (Some "green") None in
  (prefix "#" text = true <-> where_defined o = DEFAULT_DEFINITION)
  /\ out = all_lines sd opts stf
  /\ (exists pre post, out = (pre ++ option_block_of stf o ++ post)%list)
  /\ option_block_of stf o
     = (description_lines stf o ++ default_lines stf o
        ++ deprecation_lines stf o
        ++ (if String.eqb (where_defined o) DEFAULT_DEFINITION then []
            else [styled_comment stf
                    ("# The value below was set in " ++ where_defined o)])
        ++ [line])%list.
Proof.
  intros Hret Hin Hl Hk Ht Hbare. cbv zeta.
  apply generate_config_returns in Hret.
  split; [| split; [| split]].
  - destruct (String.eqb (where_defined o) DEFAULT_DEFINITION) eqn:E.
    + apply String.eqb_eq in E. split; [now intros _ |].
      intros _. simpl. now destruct (toml_dumps k (value o)).
    + apply String.eqb_neq in E. rewrite Hbare.
      split; [discriminate | easy].
  - now apply listing_all_lines.
  - destruct (listed_option_block sd opts stf out name o Hret Hin Hl)
      as (k' & pre & mid & post & Hk' & ->).
    exists (pre ++ section_header stf (section o) ++ mid)%list, post.
    unfold option_block_of. rewrite Hk'. now rewrite <- !app_assoc.
  - unfold option_block_of, short_key. rewrite Hk.
    unfold option_block, provenance_lines, setting_text, is_manually_set,
      styled_setting.
    rewrite Ht.
    destruct (String.eqb (where_defined o) DEFAULT_DEFINITION); reflexivity.
Qed.

(** X17: for a listed deprecated option the list holds five lines in a
    row: "#", the deprecation marker, "# " followed by the cleaned
    paragraphs of the deprecation text joined by line feeds, the removal
    notice with the expiration date, and "#". *)
Lemma deprecated_option_notice (sd : dict string) (opts : dict ConfigOption)
    (stf : bool) (w : World) (out : list string) (name : string)
    (o : ConfigOption) :
  fst (generate_config sd opts stf w) = inr out ->
  In (name, o) opts -> is_listed sd o = true -> deprecated o = true ->
  exists pre post,
    out = (pre
           ++ [ styled_comment stf "#";
                styled_comment stf
                  (if stf then "# DEPRECATED."
                   else "# " ++ click_style "DEPRECATED." (Some "yellow") None);
                styled_comment stf
                  ("# " ++ join nl (_clean_paragraphs (deprecation_text o)));
                styled_comment stf
                  ("# This option will be removed on or after "
                   ++ expiration_date o ++ ".");
                styled_comment stf "#" ]
           ++ post)%list.
Proof.
  intros Hret Hin Hl Hdep. apply generate_config_returns in Hret.
  destruct (listed_option_block sd opts stf out name o Hret Hin Hl)
    as (k & pre & mid & post & Hk & ->).
  exists (pre ++ section_header stf (section o) ++ mid
          ++ description_lines stf o ++ default_lines stf o)%list,
    (provenance_lines stf o
     ++ [styled_setting stf (setting_text k o)] ++ post)%list.
  unfold option_block, deprecation_lines, removal_notice. rewrite Hdep.
  repeat rewrite <- app_assoc. reflexivity.
Qed.

End OptionLines.

(** ** server_option_changed *)

Section ServerOptions.

Context `{L : Libs}.

Lemma lookup_in_keys {V} (d : dict V) (k : string) :
  In k (keys d) <-> exists v, lookup d k = Some v.
Proof.
  induction d as [| [k' v'] d IH]; simpl.
  - split; [easy | now intros [v Hv]].
  - destruct (String.eqb_spec k' k) as [-> | Hne].
    + split; [now exists v' | now left].
    + rewrite <- IH. split; [now intros [H | H] | now right].
Qed.

Lemma lookup_server_items (d : dict ConfigOption) (k : string) :
  startswith k "server" = true -> lookup (server_items d) k = lookup d k.
Proof.
  intros Hk. induction d as [| [k' v'] d IH]; [reflexivity |].
  unfold server_items in *. simpl.
  destruct (startswith k' "server") eqn:Ek'; simpl.
  - now rewrite IH.
  - destruct (String.eqb_spec k' k) as [-> | Hne]; [congruence | exact IH].
Qed.

Lemma keys_server_items (d : dict ConfigOption) :
  keys (server_items d) = filter (fun k => startswith k "server") (keys d).
Proof.
  induction d as [| [k' v'] d IH]; [reflexivity |].
  unfold server_items, keys in *. simpl.
  destruct (startswith k' "server"); simpl; now rewrite IH.
Qed.

(** The loop passes over the names that do not start with "server". *)
Lemma server_option_loop_filter (names : list string)
    (old new : dict ConfigOption) :
  server_option_loop (filter (fun k => startswith k "server") names) old new
  = server_option_loop names old new.
Proof.
  induction names as [| k names IH]; [reflexivity |].
  simpl. destruct (startswith k "server") eqn:Ek; simpl.
  - rewrite Ek. simpl. now rewrite IH.
  - exact IH.
Qed.

(** The loop reads the two mappings at the server names only. *)
Lemma server_option_loop_ext (names : list string)
    (old old' new new' : dict ConfigOption) :
  (forall k, In k names -> startswith k "server" = true ->
     lookup old' k = lookup old k /\ lookup new' k = lookup new k) ->
  server_option_loop names old' new' = server_option_loop names old new.
Proof.
  induction names as [| k names IH]; intros H; [reflexivity |].
  simpl. destruct (startswith k "server") eqn:Ek; simpl.
  - destruct (H k (or_introl eq_refl) Ek) as [Ho Hn].
    unfold getitem. rewrite Ho, Hn.
    destruct (lookup old k) as [o |]; [| reflexivity].
    destruct (lookup new k) as [n |]; [| reflexivity].
    destruct (val_ne (value o) (value n)); [reflexivity |].
    apply IH. intros k' Hk'. apply H. now right.
  - apply IH. intros k' Hk'. apply H. now right.
Qed.

Lemma server_option_changed_server_items (old new : dict ConfigOption) :
  server_option_changed (server_items old) new
  = server_option_changed old new.
Proof.
  unfold server_option_changed.
  rewrite keys_server_items, server_option_loop_filter.
  apply server_option_loop_ext. intros k _ Hk.
  split; [now apply lookup_server_items | reflexivity].
Qed.

(** When the server names are found in both mappings the loop returns,
    and it returns True exactly when it met a differing pair. *)
Lemma server_option_loop_spec (names : list string)
    (old new : dict ConfigOption) :
  (forall k, In k names -> startswith k "server" = true ->
     In k (keys old) /\ In k (keys new)) ->
  exists b,
    server_option_loop names old new = inr b
    /\ (b = true <->
        exists k o n,
          In k names /\ startswith k "server" = true
          /\ lookup old k = Some o /\ lookup new k = Some n
          /\ val_ne (value o) (value n) = true).
Proof.
  induction names as [| k names IH]; intros H.
  - exists false. split; [reflexivity |].
    split; [discriminate | now intros (k & o & n & [] & _)].
  - destruct IH as (b & Hb & Hiff);
      [intros k' Hk'; apply H; now right |].
    simpl. destruct (startswith k "server") eqn:Ek; simpl.
    + destruct (H k (or_introl eq_refl) Ek) as [Ho Hn].
      apply lookup_in_keys in Ho as [o Ho].
      apply lookup_in_keys in Hn as [n Hn].
      unfold getitem. rewrite Ho, Hn.
      destruct (val_ne (value o) (value n)) eqn:Ene.
      * exists true. split; [reflexivity |].
        split; [intros _ | reflexivity].
        exists k, o, n. repeat split; try assumption. now left.
      * exists b. split; [exact Hb |].
        rewrite Hiff. split.
        -- intros (k' & o' & n' & Hin & Hrest).
           exists k', o', n'. split; [now right | exact Hrest].
        -- intros (k' & o' & n' & [<- | Hin] & Hs & Ho' & Hn' & Hne).
           ++ congruence.
           ++ now exists k', o', n'.
    + exists b. split; [exact Hb |].
      rewrite Hiff. split.
      * intros (k' & o' & n' & Hin & Hrest).
        exists k', o', n'. split; [now right | exact Hrest].
      * intros (k' & o' & n' & [<- | Hin] & Hs & Hrest).
        -- congruence.
        -- now exists k', o', n'.
Qed.

(** C8: when every key of [old_options] that starts with "server" is a key
    of [new_options], [server_option_changed] returns, and it returns True
    exactly when some such key maps to options whose values differ by
    [!=].  The answer is the same for any old mapping with the same server
    items, and for any new mapping that agrees with [new_options] at the
    server keys of [old_options]. *)
Theorem server_option_changed_iff (old_options new_options : dict ConfigOption) :
  (forall k, In k (keys old_options) -> startswith k "server" = true ->
     In k (keys new_options)) ->
  exists b,
    server_option_changed old_options new_options = inr b
    /\ (b = true <->
        exists k o n,
          startswith k "server" = true
          /\ lookup old_options k = Some o /\ lookup new_options k = Some n
          /\ val_ne (value o) (value n) = true)
    /\ (forall old',
          server_items old' = server_items old_options ->
          server_option_changed old' new_options = inr b)
    /\ (forall new',
          (forall k, In k (keys old_options) ->
             startswith k "server" = true ->
             lookup new' k = lookup new_options k) ->
          server_option_changed old_options new' = inr b).
Proof.
  intros H.
  destruct (server_option_loop_spec (keys old_options) old_options
              new_options) as (b & Hb & Hiff).
  { intros k Hk Hs. split; [exact Hk | now apply H]. }
  exists b. split; [exact Hb |]. split; [| split].
  - rewrite Hiff. split.
    + intros (k & o & n & _ & Hrest). now exists k, o, n.
    + intros (k & o & n & Hs & Ho & Hrest). exists k, o, n.
      split; [| now split].
      apply lookup_in_keys. now exists o.
  - intros old' Hsame.
    rewrite <- (server_option_changed_server_items old'), Hsame.
    now rewrite server_option_changed_server_items.
  - intros new' Hagree. rewrite <- Hb. unfold server_option_changed.
    apply server_option_loop_ext. intros k Hk Hs.
    split; [reflexivity | now apply Hagree].
Qed.

End ServerOptions.

(** ** The module at work on the sample options *)

Section Samples.

#[local] Existing Instance Sim.libs.

Lemma sample_file_run :
  Sim.run Sim.sections Sim.options true Sim.fresh_world
  = (inr Sim.file_lines,
     {| Sim.disk := [(".streamlit/config.toml", join nl Sim.file_lines)];
        Sim.terminal := ["Wrote config file to .streamlit/config.toml"];
        Sim.writable := true |}).
Proof. vm_compute. reflexivity. Qed.

Lemma sample_terminal_run :
  Sim.run Sim.sections [("server.port", Sim.port)] false Sim.used_world
  = (inr [ header_line; "";
           Sim.esc ++ "32m" ++ Sim.esc ++ "1m[server]" ++ Sim.esc ++ "0m"; "";
           Sim.esc ++ "1m# The port where the server will listen."
           ++ Sim.esc ++ "0m";
           "# Default: 8501" ++ Sim.esc ++ "0m";
           Sim.esc ++ "32m#port = 8501" ++ nl ++ Sim.esc ++ "0m";
           "";
           Sim.esc ++ "32m" ++ Sim.esc ++ "1m[browser]" ++ Sim.esc ++ "0m";
           "" ],
     Sim.used_world).
Proof. vm_compute. reflexivity. Qed.

Lemma sample_read_only_run :
  Sim.run Sim.sections Sim.options true Sim.read_only_world
  = (inl (FileLayerError "Unable to write file: .streamlit/config.toml"),
     Sim.read_only_world).
Proof. vm_compute. reflexivity. Qed.

Lemma skipped_options_leave_no_trace_witness :
  Sim.run Sim.sections Sim.options true Sim.fresh_world
  = Sim.run Sim.sections
      [("server.port", Sim.port);
       ("browser.gatherUsageStats", Sim.gather_stats);
       ("server.headless", Sim.headless)] true Sim.fresh_world.
Proof.
  exact (proj1 (@skipped_options_leave_no_trace Sim.libs Sim.files
                  Sim.sections Sim.options true Sim.fresh_world)).
Defined.

Lemma sections_group_options_witness :
  fst (Sim.run Sim.sections Sim.options true Sim.fresh_world)
  = inr Sim.file_lines
  /\ (exists blocks,
        Sim.file_lines = header_line :: concat blocks
        /\ Forall2
             (fun s block =>
                exists option_blocks,
                  block = ([""; styled_section true ("[" ++ s ++ "]"); ""]
                           ++ concat option_blocks)%list
                  /\ Forall2 (fun o b => option_lines true o = inr b)
                       (filter (listed_under s) (map snd Sim.options))
                       option_blocks)
             (filter (fun s => negb (in_skip_sections s)) (keys Sim.sections))
             blocks).
Proof.
  split; [vm_compute; reflexivity |].
  apply (@sections_group_options Sim.libs Sim.files Sim.sections Sim.options
           true Sim.fresh_world Sim.file_lines).
  vm_compute; reflexivity.
Defined.

Lemma header_comes_first_witness :
  fst (Sim.run Sim.sections Sim.options true Sim.fresh_world)
  = inr Sim.file_lines
  /\ hd_error Sim.file_lines
     = Some "# Below are all the sections and options you can have in ~/.streamlit/config.toml.".
Proof.
  split; [vm_compute; reflexivity |].
  apply (@header_comes_first Sim.libs Sim.files Sim.sections Sim.options
           true Sim.fresh_world Sim.file_lines).
  vm_compute; reflexivity.
Defined.

Lemma listed_option_lines_witness :
  fst (Sim.run Sim.sections Sim.options true Sim.fresh_world)
  = inr Sim.file_lines
  /\ In ("server.headless", Sim.headless) Sim.options
  /\ is_listed Sim.sections Sim.headless = true
  /\ Sim.file_lines = all_lines Sim.sections Sim.options true
  /\ (exists pre post,
        Sim.file_lines
        = (pre ++ option_block_of true Sim.headless ++ post)%list)
  /\ option_block_of true Sim.headless
     = [ "# Do not open a browser window on start.";
         "# Default: false";
         "# The value below was set in command-line argument or environment variable";
         "headless = true" ++ nl ].
Proof.
  split; [vm_compute; reflexivity |].
  split; [do 2 right; left; reflexivity |].
  split; [reflexivity |].
  destruct (@listed_option_lines Sim.libs Sim.files Sim.sections Sim.options
              true Sim.fresh_world Sim.file_lines "server.headless"
              Sim.headless)
    as (Hall & Hin & k & p & ps & Hk & Hp & _ & Hblock).
  - vm_compute; reflexivity.
  - do 2 right; left; reflexivity.
  - reflexivity.
  - split; [exact Hall |]. split; [exact Hin |].
    injection Hk as <-. injection Hp as <- <-. exact Hblock.
Defined.

(** C4 as stated fails on an option whose default value and current value
    are [None]: it is listed, yet no line of the returned list starts with
    "# Default: ", and its setting line carries a key and no value. *)
Lemma default_line_missing :
  fst (Sim.run Sim.sections [("server.address", Sim.address)] true
         Sim.fresh_world)
  = inr Sim.address_lines
  /\ is_listed Sim.sections Sim.address = true
  /\ (forall line, In line Sim.address_lines ->
        prefix "# Default: " line = false)
  /\ In ("#address =" ++ nl) Sim.address_lines.
Proof.
  split; [vm_compute; reflexivity |].
  split; [reflexivity |].
  split.
  - intros line Hin. simpl in Hin.
    repeat (destruct Hin as [<- | Hin]; [reflexivity |]).
    destruct Hin.
  - do 5 right; left; reflexivity.
Qed.

Lemma setting_commented_unless_manual_witness :
  fst (Sim.run Sim.sections Sim.options true Sim.fresh_world)
  = inr Sim.file_lines
  /\ In ("server.port", Sim.port) Sim.options
  /\ is_listed Sim.sections Sim.port = true
  /\ nth_error (split "." (key Sim.port)) 1 = Some "port"
  /\ is_empty (toml_dumps "port" (value Sim.port)) = false
  /\ prefix "#" (toml_dumps "port" (value Sim.port)) = false
  /\ (prefix "#" ("#port = 8501" ++ nl) = true
      <-> where_defined Sim.port = "<default>")
  /\ option_block_of true Sim.port
     = [ "# The port where the server will listen.";
         "# Default: 8501";
         "#port = 8501" ++ nl ].
Proof.
  split; [vm_compute; reflexivity |].
  split; [left; reflexivity |].
  do 4 (split; [reflexivity |]).
  destruct (@setting_commented_unless_manual Sim.libs Sim.files Sim.sections
              Sim.options true Sim.fresh_world Sim.file_lines
              "server.port" Sim.port "port")
    as (Hiff & _ & _ & Hblock).
  - vm_compute; reflexivity.
  - left; reflexivity.
  - reflexivity.
  - reflexivity.
  - reflexivity.
  - reflexivity.
  - split; [exact Hiff | exact Hblock].
Defined.

(** C9 as stated fails in terminal mode: the option [server.port] is
    listed with its default provenance and a TOML text that is not empty,
    yet its setting line, the seventh of the list, starts with the escape
    sequence of the green colour and not with "#". *)
Lemma terminal_setting_line_starts_with_escape :
  fst (Sim.run Sim.sections [("server.port", Sim.port)] false
         Sim.fresh_world)
  = inr (SimMore.lines_of Sim.sections [("server.port", Sim.port)] false)
  /\ is_listed Sim.sections Sim.port = true
  /\ where_defined Sim.port = DEFAULT_DEFINITION
  /\ is_empty (toml_dumps "port" (value Sim.port)) = false
  /\ nth_error
       (SimMore.lines_of Sim.sections [("server.port", Sim.port)] false) 6
     = Some (Sim.esc ++ "32m#port = 8501" ++ nl ++ Sim.esc ++ "0m")
  /\ option_block_of false Sim.port
     = [ Sim.esc ++ "1m# The port where the server will listen."
         ++ Sim.esc ++ "0m";
         "# Default: 8501" ++ Sim.esc ++ "0m";
         Sim.esc ++ "32m#port = 8501" ++ nl ++ Sim.esc ++ "0m" ]
  /\ prefix "#" (Sim.esc ++ "32m#port = 8501" ++ nl ++ Sim.esc ++ "0m")
     = false.
Proof. repeat split; vm_compute; reflexivity. Qed.

Lemma server_option_changed_iff_witness :
  (forall k, In k (keys Sim.options) -> startswith k "server" = true ->
     In k (keys Sim.reloaded_options))
  /\ server_option_changed Sim.options Sim.reloaded_options = inr true
  /\ (exists k o n,
        startswith k "server" = true
        /\ lookup Sim.options k = Some o
        /\ lookup Sim.reloaded_options k = Some n
        /\ val_ne (value o) (value n) = true).
Proof.
  assert (H : forall k, In k (keys Sim.options) ->
                startswith k "server" = true ->
                In k (keys Sim.reloaded_options)).
  { intros k [<- | [<- | [<- | [<- | []]]]] Hs; simpl;
      try discriminate; tauto. }
  split; [exact H |].
  destruct (@server_option_changed_iff Sim.libs Sim.options
              Sim.reloaded_options H) as (b & Hb & Hiff & _).
  assert (E : b = true) by (vm_compute in Hb; now injection Hb).
  split; [now rewrite <- E |].
  now apply Hiff.
Defined.

(** C2: the deprecation text goes into one element of the list, with "# "
    before its first paragraph only.  On a text of two paragraphs the
    element holds a line break followed by the bare second paragraph, and
    the file written in file mode has a line that is no comment.  The
    removal notice is there as a comment line of its own. *)
Theorem deprecation_text_later_paragraphs_bare :
  Sim.run Sim.sections [("server.folderWatchBlacklist", Sim.old_flag)] true
    Sim.fresh_world
  = (inr Sim.old_flag_lines,
     {| Sim.disk := [(".streamlit/config.toml", join nl Sim.old_flag_lines)];
        Sim.terminal := ["Wrote config file to .streamlit/config.toml"];
        Sim.writable := true |})
  /\ is_listed Sim.sections Sim.old_flag = true
  /\ deprecated Sim.old_flag = true
  /\ In ("# Use server.folderWatchList instead." ++ nl
         ++ "See the documentation.") Sim.old_flag_lines
  /\ In "# This option will be removed on or after 2023-01-01."
       Sim.old_flag_lines
  /\ In "See the documentation." (split nl (join nl Sim.old_flag_lines))
  /\ prefix "#" "See the documentation." = false.
Proof.
  split; [vm_compute; reflexivity |].
  split; [reflexivity |]. split; [reflexivity |].
  split; [do 7 right; left; reflexivity |].
  split; [do 8 right; left; reflexivity |].
  split; [| reflexivity].
  vm_compute. do 8 right; left; reflexivity.
Qed.

Lemma file_effect_only_when_saving_witness :
  Sim.run Sim.sections Sim.options false Sim.used_world
  = (inr (SimMore.lines_of Sim.sections Sim.options false), Sim.used_world)
  /\ Sim.run Sim.sections Sim.options true Sim.used_world
     = (inr Sim.file_lines,
        {| Sim.disk := [(".streamlit/config.toml", join nl Sim.file_lines);
                        (".streamlit/config.toml", "[server]")];
           Sim.terminal := ["You can now view your app in your browser.";
                            "Wrote config file to .streamlit/config.toml"];
           Sim.writable := true |})
  /\ Sim.run Sim.sections Sim.options true Sim.read_only_world
     = (inl (FileLayerError "Unable to write file: .streamlit/config.toml"),
        Sim.read_only_world).
Proof.
  destruct (@file_effect_only_when_saving Sim.libs Sim.files Sim.sections
              Sim.options Sim.used_world) as (Hterminal & _ & Hfile).
  destruct (@file_effect_only_when_saving Sim.libs Sim.files Sim.sections
              Sim.options Sim.read_only_world) as (_ & _ & Hrefused).
  split; [exact Hterminal |]. split; [exact Hfile | exact Hrefused].
Defined.

End Samples.

(** ** [generate_config] on option objects *)

Section Objects.

Context `{L : Libs} `{F : FileLayer} `{R : @Runtime L F}.

Lemma appends_raise (e : exn) : appends (raise e) (inl e).
Proof. intros out. reflexivity. Qed.

Lemma appends_bind_ret {A} (a : A) (k : A -> M Out unit) (r : lines) :
  appends (k a) r -> appends (bind (ret a) k) r.
Proof. intros H out. exact (H out). Qed.

Lemma appends_bind_raise {A} (e : exn) (k : A -> M Out unit) :
  appends (bind (raise e) k) (inl e).
Proof. intros out. reflexivity. Qed.

Lemma appends_seq_to (m k : M Out unit) (r1 r2 r : lines) :
  appends m r1 -> appends k r2 -> then_lines r1 r2 = r ->
  appends (m ;; k) r.
Proof. intros Hm Hk <-. now apply appends_seq. Qed.

Lemma appends_marker (stf : bool) :
  appends
    (if negb stf
     then append_comment stf
            ("# " ++ click_style "DEPRECATED." (Some "yellow") None)
     else append_comment stf "# DEPRECATED.")
    (inr [styled_comment stf
            (if stf then "# DEPRECATED."
             else "# " ++ click_style "DEPRECATED." (Some "yellow") None)]).
Proof. destruct stf; apply appends_comment. Qed.

Lemma appends_emit_object (stf : bool) (o : obj.OptionObject) :
  appends (Dyn.emit_option stf o) (Dyn.object_lines stf o).
Proof.
  destruct o as [k0 sec desc dv v vis dep dtxt edate wd].
  unfold Dyn.object_lines, Dyn.emit_option, getindex. cbn [obj.key obj.description obj.deprecated obj.deprecation_text obj.default_val obj.value obj.where_defined obj.expiration_date].
  destruct (nth_error (split "." k0) 1) as [k |] eqn:Hk;
    [| intros out; reflexivity].
  destruct desc as [d |]; [| intros out; reflexivity].
  cbn [Dyn.is_none].
  destruct dep; destruct dtxt as [t |]; cbn [andb Dyn.is_none].
  - intros out.
    pose proof (appends_emit_option stf (Dyn.as_config_option
      {| obj.key := k0; obj.section := sec; obj.description := Some d; obj.default_val := dv; obj.value := v; obj.visibility := vis; obj.deprecated := true; obj.deprecation_text := Some t; obj.expiration_date := edate; obj.where_defined := wd |}) out) as H.
    unfold option_lines, short_key, emit_option, getindex in H.
    cbn [Dyn.as_config_option config_option.key obj.key] in H.
    rewrite Hk in H. exact H.
  - cbv zeta. apply appends_bind_ret.
    unfold Dyn._clean_paragraphs. apply appends_bind_ret.
    set (c := Dyn.as_config_option
      {| obj.key := k0; obj.section := sec; obj.description := Some d;
         obj.default_val := dv; obj.value := v; obj.visibility := vis;
         obj.deprecated := true; obj.deprecation_text := None;
         obj.expiration_date := edate; obj.where_defined := wd |}).
    eapply appends_seq_to; [apply (appends_description stf c) | |].
    + eapply appends_seq_to; [apply (appends_default stf c) | |].
      * eapply appends_seq_to.
        -- eapply appends_seq_to; [apply appends_comment | |].
           ++ eapply appends_seq_to; [apply appends_marker | |].
              ** apply appends_bind_raise.
              ** reflexivity.
           ++ reflexivity.
        -- eapply appends_seq_to; [apply (appends_provenance stf c) | |].
           ++ apply appends_setting.
           ++ reflexivity.
        -- reflexivity.
      * reflexivity.
    + reflexivity.
  - intros out.
    pose proof (appends_emit_option stf (Dyn.as_config_option
      {| obj.key := k0; obj.section := sec; obj.description := Some d;
         obj.default_val := dv; obj.value := v; obj.visibility := vis;
         obj.deprecated := false; obj.deprecation_text := Some t;
         obj.expiration_date := edate; obj.where_defined := wd |}) out)
      as H.
    unfold option_lines, short_key, emit_option, getindex in H.
    cbn [Dyn.as_config_option config_option.key obj.key] in H.
    rewrite Hk in H. exact H.
  - intros out.
    pose proof (appends_emit_option stf (Dyn.as_config_option
      {| obj.key := k0; obj.section := sec; obj.description := Some d;
         obj.default_val := dv; obj.value := v; obj.visibility := vis;
         obj.deprecated := false; obj.deprecation_text := None;
         obj.expiration_date := edate; obj.where_defined := wd |}) out)
      as H.
    unfold option_lines, short_key, emit_option, getindex in H.
    cbn [Dyn.as_config_option config_option.key obj.key] in H.
    rewrite Hk in H. exact H.
Qed.

Lemma appends_object_step (w : World) (stf : bool) (section : string)
    (item : string * obj.OptionObject) :
  appends (Dyn.option_step w stf section item)
    (Dyn.object_step_lines w stf section (snd item)).
Proof.
  destruct item as [name o].
  unfold Dyn.option_step, Dyn.object_step_lines, Dyn.consulted_under.
  simpl snd.
  destruct (String.eqb (obj.section o) section); simpl;
    [| apply appends_ret].
  destruct (String.eqb (obj.visibility o) "hidden"); simpl;
    [apply appends_ret |].
  destruct (is_expired_in w o) as [e | [|]];
    [apply appends_raise | apply appends_ret | apply appends_emit_object].
Qed.

Lemma appends_object_section_step (w : World) (stf : bool)
    (config_options : dict obj.OptionObject) (item : string * string) :
  appends (Dyn.section_step w stf config_options item)
    (if negb (in_skip_sections (fst item))
     then then_lines (inr (section_header stf (fst item)))
            (gather (map (Dyn.object_step_lines w stf (fst item))
                       (map snd config_options)))
     else inr []).
Proof.
  destruct item as [section section_description].
  unfold Dyn.section_step, section_header. simpl fst.
  destruct (in_skip_sections section); simpl negb; cbv iota;
    [apply appends_ret |].
  rewrite (then_lines_cons "" [_; ""]), (then_lines_cons _ [""]).
  apply appends_seq; [apply appends_out_append |].
  apply appends_seq; [apply appends_section |].
  apply appends_seq; [apply appends_out_append |].
  rewrite map_map.
  apply appends_for_each. intros item. apply appends_object_step.
Qed.

Lemma appends_fill_out_objects (w : World) (section_descriptions : dict string)
    (config_options : dict obj.OptionObject) (stf : bool) :
  appends (Dyn.fill_out w section_descriptions config_options stf)
    (Dyn.object_listing w section_descriptions config_options stf).
Proof.
  unfold Dyn.fill_out, Dyn.object_listing, listed_sections, keys.
  rewrite clean_header_text.
  apply appends_seq; [apply appends_out_append |].
  rewrite <- (gather_filter (fun s => negb (in_skip_sections s))
                (fun s => then_lines (inr (section_header stf s))
                   (gather (map (Dyn.object_step_lines w stf s)
                              (map snd config_options))))).
  rewrite map_map.
  apply appends_for_each. intros item. apply appends_object_section_step.
Qed.

Lemma with_fresh_out_objects (section_descriptions : dict string)
    (config_options : dict obj.OptionObject) (stf : bool) (w : World) :
  with_fresh_out (Dyn.fill_out w section_descriptions config_options stf) w
  = (Dyn.object_listing w section_descriptions config_options stf, w).
Proof.
  pose proof (appends_fill_out_objects w section_descriptions config_options
                stf []) as H.
  unfold with_fresh_out. unfold outcome in H.
  destruct (Dyn.fill_out w section_descriptions config_options stf [])
    as [[e | u] out];
    destruct (Dyn.object_listing w section_descriptions config_options stf)
      as [e' | l];
    try discriminate; simpl in H; injection H as ->; reflexivity.
Qed.

Lemma generate_config_objects_unfold (section_descriptions : dict string)
    (config_options : dict obj.OptionObject) (stf : bool) (w : World) :
  Dyn.generate_config section_descriptions config_options stf w
  = match Dyn.object_listing w section_descriptions config_options stf with
    | inl e => (inl e, w)
    | inr out =>
        if stf then
          match save_step out w with
          | (inl e, w') => (inl e, w')
          | (inr _, w') => (inr out, w')
          end
        else (inr out, w)
    end.
Proof.
  unfold Dyn.generate_config, bind at 1. rewrite with_fresh_out_objects.
  destruct (Dyn.object_listing w section_descriptions config_options stf)
    as [e | out]; [reflexivity |].
  destruct stf; [| reflexivity].
  unfold bind, save_step, ret.
  now destruct (with_as _ _ w) as [[e | u] w'].
Qed.



Lemma consulted_under_listed (sd : dict string) (s : string)
    (o : obj.OptionObject) :
  In s (listed_sections sd) -> Dyn.consulted_under s o = true ->
  Dyn.consulted sd o = true.
Proof.
  intros Hs Ho. unfold Dyn.consulted. apply existsb_exists. exists s. auto.
Qed.


(** The lines depend on the world through the answers of [is_expired()]
    on the objects it is called on, and through nothing else. *)
Lemma object_listing_ext (w1 w2 : World) (sd : dict string)
    (opts : dict obj.OptionObject) (stf : bool) :
  Dyn.same_expiry_answers sd opts w1 w2 ->
  Dyn.object_listing w1 sd opts stf = Dyn.object_listing w2 sd opts stf.
Proof.
  intros H. unfold Dyn.object_listing. f_equal.
  apply gather_ext. intros s Hs. f_equal.
  apply gather_ext. intros o Ho.
  apply in_map_iff in Ho. destruct Ho as [item [<- Hitem]].
  unfold Dyn.object_step_lines.
  destruct (Dyn.consulted_under s (snd item)) eqn:Hc; [| reflexivity].
  now rewrite (H item Hitem (consulted_under_listed sd s _ Hs Hc)).
Qed.

(** C6, amended: equal mappings and an equal flag do not settle the lines, as
    [is_expired()] reads the clock; they do once the calls of
    [is_expired()] that are made have the same answers.  Then two calls in
    terminal mode have the same result, be it lines or an exception, and
    two calls in either mode that return, return the same lines, whatever
    files and terminal text the two worlds hold: each call starts from
    its own empty buffer. *)
Theorem lines_depend_on_expiry_answers (sd : dict string)
    (opts : dict obj.OptionObject) (stf : bool) (w1 w2 : World) :
  Dyn.same_expiry_answers sd opts w1 w2 ->
  fst (Dyn.generate_config sd opts false w1)
  = fst (Dyn.generate_config sd opts false w2)
  /\ forall out1 out2,
       fst (Dyn.generate_config sd opts stf w1) = inr out1 ->
       fst (Dyn.generate_config sd opts stf w2) = inr out2 ->
       out1 = out2.
Proof.
  intros H. split.
  - rewrite !generate_config_objects_unfold.
    rewrite (object_listing_ext w1 w2 sd opts false H).
    now destruct (Dyn.object_listing w2 sd opts false).
  - intros out1 out2. rewrite !generate_config_objects_unfold.
    rewrite (object_listing_ext w1 w2 sd opts stf H).
    destruct (Dyn.object_listing w2 sd opts stf) as [e | out];
      [discriminate |].
    destruct stf.
    + destruct (save_step out w1) as [[e1 | u1] w1'];
        destruct (save_step out w2) as [[e2 | u2] w2']; simpl;
        try discriminate.
      now intros [= <-] [= <-].
    + simpl. now intros [= <-] [= <-].
Qed.


End Objects.

(** ** The functions on objects, run on the sample objects *)

Section ObjectSamples.

Lemma sample_objects_same_answers :
  @Dyn.same_expiry_answers Sim.libs SimPy.files SimPy.runtime
    Sim.sections SimPy.objects SimPy.before SimPy.before_used.
Proof.
  intros item [<- | [<- | [<- | []]]] _; reflexivity.
Qed.

(** C6 as stated fails: the same two mappings and the same flag give two
    different lists on two days, in file mode and in terminal mode, the
    files and the terminal being the same. *)
Lemma clock_changes_the_lines :
  fst SimPy.before = fst SimPy.after
  /\ fst (SimPy.run Sim.sections SimPy.objects true SimPy.before)
     = inr SimPy.lines_before
  /\ fst (SimPy.run Sim.sections SimPy.objects true SimPy.after)
     = inr SimPy.lines_after
  /\ SimPy.lines_before <> SimPy.lines_after
  /\ fst (SimPy.run Sim.sections SimPy.objects false SimPy.before)
     <> fst (SimPy.run Sim.sections SimPy.objects false SimPy.after).
Proof.
  split; [reflexivity |].
  split; [vm_compute; reflexivity |].
  split; [vm_compute; reflexivity |].
  split; vm_compute; discriminate.
Qed.

Lemma lines_depend_on_expiry_answers_witness :
  @Dyn.same_expiry_answers Sim.libs SimPy.files SimPy.runtime
    Sim.sections SimPy.objects SimPy.before SimPy.before_used
  /\ fst SimPy.before <> fst SimPy.before_used
  /\ fst (SimPy.run Sim.sections SimPy.objects false SimPy.before)
     = fst (SimPy.run Sim.sections SimPy.objects false SimPy.before_used)
  /\ fst (SimPy.run Sim.sections SimPy.objects true SimPy.before)
     = inr SimPy.lines_before
  /\ (forall out,
        fst (SimPy.run Sim.sections SimPy.objects true SimPy.before_used)
        = inr out ->
        out = SimPy.lines_before).
Proof.
  split; [exact sample_objects_same_answers |].
  split; [vm_compute; discriminate |].
  split.
  - exact (proj1 (@lines_depend_on_expiry_answers Sim.libs SimPy.files
                    SimPy.runtime Sim.sections SimPy.objects false
                    SimPy.before SimPy.before_used
                    sample_objects_same_answers)).
  - split; [vm_compute; reflexivity |].
    intros out Hout. symmetry.
    apply (proj2 (@lines_depend_on_expiry_answers Sim.libs SimPy.files
                    SimPy.runtime Sim.sections SimPy.objects true
                    SimPy.before SimPy.before_used
                    sample_objects_same_answers)
             SimPy.lines_before out); [vm_compute; reflexivity | exact Hout].
Defined.



End ObjectSamples.

(** * Further properties of the module *)

(** ** server_option_changed: what decides the answer *)

Section ServerOptionsMore.

Context `{L : Libs}.

Lemma server_option_loop_false (names : list string)
    (old new : dict ConfigOption) :
  server_option_loop names old new = inr false <->
  (forall k, In k names -> startswith k "server" = true ->
     exists o n,
       lookup old k = Some o /\ lookup new k = Some n
       /\ val_ne (value o) (value n) = false).
Proof.
  induction names as [| k names IH]; simpl.
  - split; [intros _ k [] | reflexivity].
  - destruct (startswith k "server") eqn:Ek; simpl.
    + unfold getitem.
      destruct (lookup old k) as [o |] eqn:Eo.
      * destruct (lookup new k) as [n |] eqn:En.
        -- destruct (val_ne (value o) (value n)) eqn:Ene.
           ++ split; [discriminate |].
              intros H. destruct (H k (or_introl eq_refl) Ek)
                as (o' & n' & Ho' & Hn' & Hne).
              congruence.
           ++ rewrite IH. split.
              ** intros H k' [<- | Hin] Hs; [now exists o, n | now apply H].
              ** intros H k' Hin. apply H. now right.
        -- split; [discriminate |].
           intros H. destruct (H k (or_introl eq_refl) Ek)
             as (o' & n' & _ & Hn' & _). congruence.
      * split; [discriminate |].
        intros H. destruct (H k (or_introl eq_refl) Ek)
          as (o' & n' & Ho' & _). congruence.
    + rewrite IH. split.
      * intros H k' [<- | Hin] Hs; [congruence | now apply H].
      * intros H k' Hin. apply H. now right.
Qed.

Lemma server_option_loop_raises (names : list string)
    (old new : dict ConfigOption) (e : exn) :
  (forall k, In k names -> In k (keys old)) ->
  server_option_loop names old new = inl e ->
  exists k,
    e = KeyError k /\ In k names /\ startswith k "server" = true
    /\ lookup new k = None.
Proof.
  induction names as [| k names IH]; intros Hold; simpl; [discriminate |].
  assert (Hrest : forall k', In k' names -> In k' (keys old))
    by (intros k' Hk'; apply Hold; now right).
  destruct (startswith k "server") eqn:Ek; simpl.
  - destruct (proj1 (lookup_in_keys old k) (Hold k (or_introl eq_refl)))
      as [o Ho].
    unfold getitem. rewrite Ho.
    destruct (lookup new k) as [n |] eqn:En.
    + destruct (val_ne (value o) (value n)); [discriminate |].
      intros H. destruct (IH Hrest H) as (k' & He & Hin & Hrest').
      exists k'. split; [exact He |]. split; [now right | exact Hrest'].
    + intros [= <-]. exists k. repeat split; try assumption. now left.
  - intros H. destruct (IH Hrest H) as (k' & He & Hin & Hrest').
    exists k'. split; [exact He |]. split; [now right | exact Hrest'].
Qed.

(** The loop over [pre ++ k :: post] when nothing in [pre] stops it. *)
Lemma server_option_loop_passes (pre rest : list string)
    (old new : dict ConfigOption) :
  (forall k, In k pre -> startswith k "server" = true ->
     exists o n,
       lookup old k = Some o /\ lookup new k = Some n
       /\ val_ne (value o) (value n) = false) ->
  server_option_loop (pre ++ rest) old new
  = server_option_loop rest old new.
Proof.
  induction pre as [| k pre IH]; intros H; [reflexivity |].
  simpl. destruct (startswith k "server") eqn:Ek; simpl.
  - destruct (H k (or_introl eq_refl) Ek) as (o & n & Ho & Hn & Hne).
    unfold getitem. rewrite Ho, Hn, Hne.
    apply IH. intros k' Hk'. apply H. now right.
  - apply IH. intros k' Hk'. apply H. now right.
Qed.

(** X1: [server_option_changed] returns False exactly when every key of
    [old_options] that starts with "server" is also a key of
    [new_options] and the two values there do not differ by [!=]. *)
Theorem server_option_unchanged_iff (old_options new_options : dict ConfigOption) :
  server_option_changed old_options new_options = inr false <->
  (forall k, In k (keys old_options) -> startswith k "server" = true ->
     exists o n,
       lookup old_options k = Some o /\ lookup new_options k = Some n
       /\ val_ne (value o) (value n) = false).
Proof. apply server_option_loop_false. Qed.

(** X2: the only exception [server_option_changed] lets escape is the
    KeyError of [new_options[opt_name]], for a key of [old_options] that
    starts with "server" and is missing from [new_options]. *)
Theorem server_option_changed_raises (old_options new_options : dict ConfigOption)
    (e : exn) :
  server_option_changed old_options new_options = inl e ->
  exists k,
    e = KeyError k /\ In k (keys old_options)
    /\ startswith k "server" = true /\ lookup new_options k = None.
Proof.
  apply server_option_loop_raises. now intros k Hk.
Qed.

(** X3: the first key of [old_options], in iteration order, that starts
    with "server" and is missing from [new_options] or maps to a differing
    value decides the answer: KeyError in the first case, True in the
    second, whatever the keys after it are. *)
Theorem first_server_difference_decides (old_options new_options : dict ConfigOption)
    (pre post : list string) (k : string) (o : ConfigOption) :
  keys old_options = (pre ++ k :: post)%list ->
  (forall k', In k' pre -> startswith k' "server" = true ->
     exists o' n',
       lookup old_options k' = Some o' /\ lookup new_options k' = Some n'
       /\ val_ne (value o') (value n') = false) ->
  startswith k "server" = true ->
  lookup old_options k = Some o ->
  (lookup new_options k = None ->
   server_option_changed old_options new_options = inl (KeyError k))
  /\ (forall n, lookup new_options k = Some n ->
        val_ne (value o) (value n) = true ->
        server_option_changed old_options new_options = inr true).
Proof.
  intros Hkeys Hpre Hk Ho. unfold server_option_changed.
  rewrite Hkeys, (server_option_loop_passes pre _ _ _ Hpre).
  simpl. rewrite Hk. simpl. unfold getitem. rewrite Ho.
  split.
  - now intros ->.
  - intros n -> Hne. now rewrite Hne.
Qed.

(** X4: when no value differs from itself by [!=], comparing a mapping
    with itself gives False. *)
Theorem server_option_changed_same (options : dict ConfigOption) :
  (forall v, val_ne v v = false) ->
  server_option_changed options options = inr false.
Proof.
  intros Hrefl. apply server_option_loop_false. intros k Hk _.
  apply lookup_in_keys in Hk as [o Ho]. now exists o, o.
Qed.

(** X5: when no key of [old_options] starts with "server", the answer is
    False whatever [new_options] holds, the empty mapping included. *)
Theorem no_server_keys_no_change (old_options new_options : dict ConfigOption) :
  (forall k, In k (keys old_options) -> startswith k "server" = false) ->
  server_option_changed old_options new_options = inr false.
Proof.
  intros H. apply server_option_loop_false. intros k Hk Hs.
  rewrite (H k Hk) in Hs. discriminate.
Qed.

End ServerOptionsMore.

(** ** _clean: words and single spaces *)

Section CleanMore.

Lemma append_nil_r (s : string) : s ++ "" = s.
Proof. induction s as [| c s IH]; simpl; [reflexivity | now rewrite IH]. Qed.

Lemma snoc_append (cur : string) (c : ascii) (s : string) :
  snoc cur c ++ s = cur ++ String c s.
Proof. unfold snoc. now rewrite <- append_assoc. Qed.

Lemma clean_eq_join (txt : string) : _clean txt = join " " (split_ws txt).
Proof.
  assert (H : forallb is_word (split_ws txt) = true)
    by now apply split_ws_from_words.
  unfold _clean, strip. rewrite (lstrip_join_words _ H).
  now apply rstrip_join_words.
Qed.

Lemma split_ws_words (txt : string) : forallb is_word (split_ws txt) = true.
Proof. now apply split_ws_from_words. Qed.

Lemma split_ws_from_word (w cur rest : string) :
  no_space w = true ->
  split_ws_from cur (w ++ rest) = split_ws_from (cur ++ w) rest.
Proof.
  revert cur. induction w as [| c w IH]; intros cur Hw; simpl.
  - now rewrite append_nil_r.
  - simpl in Hw. apply andb_prop in Hw as [Hc Hw].
    apply negb_true_iff in Hc. rewrite Hc, (IH _ Hw).
    now rewrite snoc_append.
Qed.

Lemma is_word_inv (w : string) :
  is_word w = true -> is_empty w = false /\ no_space w = true.
Proof.
  unfold is_word. intros H. apply andb_prop in H as [H1 H2].
  now apply negb_true_iff in H1.
Qed.

Lemma split_ws_join_words (ws : list string) :
  forallb is_word ws = true -> split_ws (join " " ws) = ws.
Proof.
  unfold split_ws.
  induction ws as [| w ws IH]; [reflexivity |].
  intros H. simpl in H. apply andb_prop in H as [Hw Hws].
  apply is_word_inv in Hw as [Hne Hw].
  destruct ws as [| w2 ws].
  - simpl. rewrite <- (append_nil_r w) at 1.
    rewrite (split_ws_from_word w "" "" Hw). simpl. now rewrite Hne.
  - change (join " " (w :: w2 :: ws))
      with (w ++ String " " (join " " (w2 :: ws))).
    rewrite (split_ws_from_word w "" _ Hw). simpl append.
    cbn [split_ws_from]. change (is_space " ") with true. cbv iota.
    rewrite Hne. f_equal. now apply IH.
Qed.

Lemma split_ws_from_nil (cur s : string) :
  split_ws_from cur s = [] <-> is_empty cur = true /\ all_space s = true.
Proof.
  revert cur. induction s as [| c s IH]; intros cur; simpl.
  - destruct (is_empty cur); split; try easy; now intros [H _].
  - destruct (is_space c); simpl.
    + destruct (is_empty cur) eqn:E.
      * rewrite IH. simpl. tauto.
      * split; [discriminate | now intros [H _]].
    + rewrite IH. split; [| now intros [_ H]].
      intros [H _]. now destruct cur.
Qed.

Lemma join_words_nil (ws : list string) :
  forallb is_word ws = true -> join " " ws = "" -> ws = [].
Proof.
  destruct ws as [| w ws]; [reflexivity |].
  intros H E. simpl in H. apply andb_prop in H as [Hw _].
  pose proof (join_words_not_empty w ws Hw) as Hne.
  rewrite E in Hne. discriminate.
Qed.

Lemma split_ws_from_space (cur a b : string) (c : ascii) :
  is_space c = true ->
  split_ws_from cur (a ++ String c b)
  = (split_ws_from cur a ++ split_ws b)%list.
Proof.
  intros Hc. revert cur. induction a as [| x a IH]; intros cur; simpl.
  - rewrite Hc. now destruct (is_empty cur).
  - destruct (is_space x).
    + destruct (is_empty cur); [apply IH |].
      simpl. f_equal. apply IH.
    + apply IH.
Qed.

Lemma join_app (l1 l2 : list string) :
  join " " (l1 ++ l2)
  = match l1, l2 with
    | [], _ => join " " l2
    | _, [] => join " " l1
    | _, _ => join " " l1 ++ " " ++ join " " l2
    end.
Proof.
  induction l1 as [| x l1 IH]; [reflexivity |].
  destruct l2 as [| y l2]; [now rewrite app_nil_r |].
  destruct l1 as [| x2 l1]; [reflexivity |].
  change (join " " ((x :: x2 :: l1) ++ y :: l2))
    with (x ++ " " ++ join " " ((x2 :: l1) ++ y :: l2)).
  rewrite IH.
  change (join " " (x :: x2 :: l1)) with (x ++ " " ++ join " " (x2 :: l1)).
  now rewrite <- !append_assoc.
Qed.

Lemma join_words_is_empty (ws : list string) :
  forallb is_word ws = true ->
  is_empty (join " " ws) = match ws with [] => true | _ => false end.
Proof.
  destruct ws as [| w ws]; [reflexivity |].
  intros H. simpl in H. apply andb_prop in H as [Hw _].
  now apply join_words_not_empty.
Qed.

(** A whitespace character inside a sequence of words is a separating
    space. *)
Lemma no_space_middle (a b : string) (c : ascii) :
  no_space (a ++ String c b) = true -> is_space c = false.
Proof.
  induction a as [| x a IH]; simpl; intros H;
    apply andb_prop in H as [H1 H2].
  - now apply negb_true_iff.
  - now apply IH.
Qed.

Lemma word_prefix_split (w rest a b : string) (c : ascii) :
  no_space w = true -> is_space c = true ->
  w ++ rest = a ++ String c b ->
  exists a2, a = w ++ a2 /\ rest = a2 ++ String c b.
Proof.
  revert a. induction w as [| x w IH]; intros a Hw Hc E.
  - now exists a.
  - simpl in Hw. apply andb_prop in Hw as [Hx Hw].
    apply negb_true_iff in Hx.
    destruct a as [| y a]; simpl in E.
    + injection E as -> _. congruence.
    + injection E as -> E.
      destruct (IH a Hw Hc E) as (a2 & -> & Hrest).
      now exists a2.
Qed.

Lemma join_words_spaces (ws : list string) (a b : string) (c : ascii) :
  forallb is_word ws = true ->
  join " " ws = a ++ String c b -> is_space c = true ->
  c = " "%char /\ is_empty a = false /\ starts_with_ink b = true.
Proof.
  revert a. induction ws as [| w ws IH]; intros a H E Hc.
  - now destruct a.
  - simpl in H. apply andb_prop in H as [Hw Hws].
    apply is_word_inv in Hw as [Hne Hw].
    destruct ws as [| w2 ws].
    + simpl in E. rewrite E in Hw.
      apply no_space_middle in Hw. congruence.
    + change (join " " (w :: w2 :: ws))
        with (w ++ String " " (join " " (w2 :: ws))) in E.
      destruct (word_prefix_split _ _ _ _ _ Hw Hc E) as (a2 & -> & Hrest).
      assert (Hink : starts_with_ink (join " " (w2 :: ws)) = true).
      { simpl in Hws. apply andb_prop in Hws as [Hw2 _].
        apply is_word_inv in Hw2 as [Hne2 Hw2].
        destruct w2 as [| d w2]; [discriminate |].
        simpl in Hw2. apply andb_prop in Hw2 as [Hd _].
        now destruct ws. }
      assert (Hwa : forall s, is_empty (w ++ s) = false)
        by (intros s; now destruct w).
      destruct a2 as [| y a2]; simpl in Hrest.
      * injection Hrest as <- <-. now rewrite Hwa.
      * injection Hrest as <- Hrest.
        destruct (IH a2 Hws Hrest Hc) as (-> & _ & Hb).
        now rewrite Hwa.
Qed.

(** X6: cleaning a cleaned text changes nothing. *)
Theorem clean_idempotent (txt : string) : _clean (_clean txt) = _clean txt.
Proof.
  rewrite (clean_eq_join (_clean txt)), (clean_eq_join txt).
  now rewrite (split_ws_join_words _ (split_ws_words txt)).
Qed.

(** X7: the cleaned text is empty exactly when the text holds nothing but
    whitespace. *)
Theorem clean_empty_iff_blank (txt : string) :
  _clean txt = "" <-> all_space txt = true.
Proof.
  rewrite clean_eq_join. split.
  - intros E. apply join_words_nil in E; [| apply split_ws_words].
    now apply split_ws_from_nil in E.
  - intros H.
    assert (E : split_ws txt = []) by now apply split_ws_from_nil.
    now rewrite E.
Qed.

(** X8: in a cleaned text every whitespace character is a plain space
    that stands between two words: something comes before it, and what
    comes after it starts with a character that is no whitespace.  So the
    text has no tab or line break, no space at either end and no two
    spaces in a row. *)
Theorem clean_spaces_are_single (txt a b : string) (c : ascii) :
  _clean txt = a ++ String c b -> is_space c = true ->
  c = " "%char /\ is_empty a = false /\ starts_with_ink b = true.
Proof.
  rewrite clean_eq_join. apply join_words_spaces, split_ws_words.
Qed.

(** X9: cleaning two texts put together around a whitespace character
    gives the two cleaned texts with one space between them, or just one
    of them when the other is blank. *)
Theorem clean_around_space (a b : string) (c : ascii) :
  is_space c = true ->
  _clean (a ++ String c b)
  = if is_empty (_clean a) then _clean b
    else if is_empty (_clean b) then _clean a
    else _clean a ++ " " ++ _clean b.
Proof.
  intros Hc. rewrite !clean_eq_join.
  rewrite !join_words_is_empty by apply split_ws_words.
  unfold split_ws at 1. rewrite (split_ws_from_space _ _ _ _ Hc).
  fold (split_ws a). rewrite join_app.
  destruct (split_ws a); [reflexivity |].
  now destruct (split_ws b).
Qed.

End CleanMore.

(** ** _clean_paragraphs: blank lines separate paragraphs *)

Section ParagraphsMore.

Lemma split_from_no_occurrence (sep cur s : string) :
  occurs_in sep s = false -> split_from sep 0 cur s = [cur ++ s].
Proof.
  revert cur. induction s as [| c s IH]; intros cur H.
  - cbn [split_from]. now rewrite append_nil_r.
  - cbn [occurs_in] in H. apply orb_false_elim in H as [Hp Hs].
    cbn [split_from]. rewrite Hp, (IH _ Hs). now rewrite snoc_append.
Qed.

Lemma prefix_cons (a b : ascii) (s1 s2 : string) :
  prefix (String a s1) (String b s2) = Ascii.eqb a b && prefix s1 s2.
Proof.
  cbn [prefix]. destruct (ascii_dec a b) as [-> | Hne].
  - now rewrite Ascii.eqb_refl.
  - apply Ascii.eqb_neq in Hne. now rewrite Hne.
Qed.

(** A blank line starts where two line feeds follow each other. *)
Lemma prefix_blank_line (s : string) :
  prefix (nl ++ nl) s
  = match s with
    | String x (String y _) => Ascii.eqb x "010" && Ascii.eqb y "010"
    | _ => false
    end.
Proof.
  change (nl ++ nl) with (String "010" (String "010" "")).
  destruct s as [| x [| y s]]; [reflexivity | |].
  - rewrite prefix_cons. cbn [prefix]. apply andb_false_r.
  - rewrite !prefix_cons.
    rewrite (Ascii.eqb_sym "010" x), (Ascii.eqb_sym "010" y).
    now destruct (Ascii.eqb x "010"), (Ascii.eqb y "010"), s.
Qed.

Lemma ends_with_tail (c x : ascii) (s : string) :
  ends_with c (String x s) = false -> ends_with c s = false.
Proof. now destruct s. Qed.

Lemma split_from_first_blank_line (a b cur : string) :
  occurs_in (nl ++ nl) a = false -> ends_with "010" a = false ->
  split_from (nl ++ nl) 0 cur (a ++ nl ++ nl ++ b)
  = (cur ++ a) :: split (nl ++ nl) b.
Proof.
  revert cur. induction a as [| c a IH]; intros cur Hocc Hend.
  - rewrite append_nil_r.
    change ("" ++ nl ++ nl ++ b) with (String "010" (String "010" b)).
    cbn [split_from]. rewrite prefix_blank_line. reflexivity.
  - pose proof (ends_with_tail _ _ _ Hend) as Hend'.
    cbn [occurs_in] in Hocc. apply orb_false_elim in Hocc as [Hp Hocc].
    change ((String c a) ++ nl ++ nl ++ b)
      with (String c (a ++ nl ++ nl ++ b)).
    cbn [split_from].
    assert (Hq : prefix (nl ++ nl) (String c (a ++ nl ++ nl ++ b)) = false).
    { rewrite prefix_blank_line in *.
      destruct a as [| d a].
      - simpl in Hend. simpl. rewrite Hend. reflexivity.
      - exact Hp. }
    rewrite Hq, (IH _ Hocc Hend'). now rewrite snoc_append.
Qed.

Lemma clean_paragraphs_one_aux (txt : string) :
  occurs_in (nl ++ nl) txt = false ->
  join nl (_clean_paragraphs txt) = _clean txt.
Proof.
  intros H. unfold _clean_paragraphs, split.
  now rewrite (split_from_no_occurrence _ _ _ H).
Qed.

(** X10: a text without a blank line is one paragraph. *)
Theorem clean_paragraphs_one (txt : string) :
  occurs_in (nl ++ nl) txt = false ->
  _clean_paragraphs txt = [_clean txt].
Proof.
  intros H. unfold _clean_paragraphs, split.
  now rewrite (split_from_no_occurrence _ _ _ H).
Qed.

(** X11: when [a] has no blank line and does not end with a line feed,
    the paragraphs of [a], a blank line and [b] are the cleaned [a]
    followed by the paragraphs of [b]. *)
Theorem clean_paragraphs_after_blank_line (a b : string) :
  occurs_in (nl ++ nl) a = false -> ends_with "010" a = false ->
  _clean_paragraphs (a ++ nl ++ nl ++ b) = _clean a :: _clean_paragraphs b.
Proof.
  intros Hocc Hend. unfold _clean_paragraphs.
  unfold split at 1. now rewrite (split_from_first_blank_line _ _ _ Hocc Hend).
Qed.

End ParagraphsMore.

(** ** generate_config: what the listing depends on *)

Section ListingMore.

Context `{L : Libs} `{F : FileLayer}.

Lemma then_lines_assoc (r1 r2 r3 : lines) :
  then_lines r1 (then_lines r2 r3) = then_lines (then_lines r1 r2) r3.
Proof.
  destruct r1 as [e1 | l1]; [reflexivity |].
  destruct r2 as [e2 | l2]; [reflexivity |].
  destruct r3 as [e3 | l3]; [reflexivity |].
  simpl. now rewrite app_assoc.
Qed.

Lemma gather_app (rs1 rs2 : list lines) :
  gather (rs1 ++ rs2) = then_lines (gather rs1) (gather rs2).
Proof.
  unfold gather. induction rs1 as [| r rs1 IH]; simpl.
  - now destruct (fold_right then_lines (inr []) rs2).
  - rewrite IH. apply then_lines_assoc.
Qed.

Lemma listed_sections_app (sd1 sd2 : dict string) :
  listed_sections (sd1 ++ sd2)%list
  = (listed_sections sd1 ++ listed_sections sd2)%list.
Proof.
  unfold listed_sections, keys. now rewrite map_app, filter_app.
Qed.

(** X12: the descriptions of the sections are never printed: two section
    mappings with the same keys in the same order give the same result and
    the same effects. *)
Theorem section_descriptions_unused (sd sd' : dict string)
    (opts : dict ConfigOption) (stf : bool) (w : World) :
  keys sd = keys sd' ->
  generate_config sd opts stf w = generate_config sd' opts stf w.
Proof.
  intros H. apply generate_config_ext.
  unfold listing, listed_sections. now rewrite H.
Qed.

(** X13: the keys of the option mapping are never read: the loop variable
    [key] is overwritten from [option.key], so two option mappings with
    the same options in the same order give the same result and the same
    effects. *)
Theorem option_mapping_keys_unused (sd : dict string)
    (opts opts' : dict ConfigOption) (stf : bool) (w : World) :
  map snd opts = map snd opts' ->
  generate_config sd opts stf w = generate_config sd opts' stf w.
Proof.
  intros H. apply generate_config_ext.
  unfold listing. do 2 f_equal. apply map_ext. intros s.
  unfold section_block. now rewrite H.
Qed.

(** X19: the listing of two section mappings put one after the other is
    the listing of the first followed by the listing of the second without
    its header line. *)
Theorem sections_listing_appends (sd1 sd2 : dict string)
    (opts : dict ConfigOption) (w : World) (out1 out2 : list string) :
  generate_config sd1 opts false w = (inr out1, w) ->
  generate_config sd2 opts false w = (inr out2, w) ->
  generate_config (sd1 ++ sd2)%list opts false w
  = (inr (out1 ++ tl out2)%list, w).
Proof.
  rewrite !generate_config_unfold. intros H1 H2.
  destruct (listing sd1 opts false) as [e1 | l1] eqn:E1; [discriminate |].
  destruct (listing sd2 opts false) as [e2 | l2] eqn:E2; [discriminate |].
  injection H1 as ->. injection H2 as ->.
  apply listing_inv in E1 as (r1 & -> & G1).
  apply listing_inv in E2 as (r2 & -> & G2).
  unfold listing. rewrite listed_sections_app, map_app, gather_app, G1, G2.
  reflexivity.
Qed.

(** *** The two modes, line by line *)









(** *** No listed option *)

Lemma gather_all_inr {A} (f : A -> list string) (l : list A) :
  gather (map (fun x => inr (f x)) l) = inr (concat (map f l)).
Proof.
  unfold gather. induction l as [| x l IH]; simpl; [reflexivity |].
  now rewrite IH.
Qed.

(** X20: when no option of the mapping is listed (the empty mapping
    included), terminal mode cannot fail and returns the header line
    followed by the three header lines of every section outside
    SKIP_SECTIONS, sections without options being printed all the same;
    when every section is skipped, the header line is all there is. *)
Theorem no_listed_option_bare_sections (sd : dict string)
    (opts : dict ConfigOption) (w : World) :
  (forall item, In item opts -> is_listed sd (snd item) = false) ->
  generate_config sd opts false w
  = (inr (header_line
          :: concat
               (map (fun s =>
                       [""; click_style ("[" ++ s ++ "]") (Some "green")
                              (Some true); ""])
                  (filter (fun s => negb (in_skip_sections s)) (keys sd)))),
     w).
Proof.
  intros H. rewrite generate_config_unfold.
  assert (E : listing sd opts false
              = inr (header_line
                     :: concat (map (section_header false)
                                  (listed_sections sd)))).
  { unfold listing.
    rewrite (gather_ext (section_block false opts)
               (fun s => inr (section_header false s))).
    - now rewrite gather_all_inr.
    - intros s Hs. unfold section_block.
      assert (Hnone : filter (listed_under s) (map snd opts) = []).
      { induction opts as [| item opts' IH]; [reflexivity |].
        simpl. rewrite IH by (intros i Hi; apply H; now right).
        destruct (listed_under s (snd item)) eqn:Hu; [| reflexivity].
        assert (Hl : is_listed sd (snd item) = true).
        { unfold is_listed. apply existsb_exists. now exists s. }
        rewrite (H item (or_introl eq_refl)) in Hl. discriminate. }
      rewrite Hnone. reflexivity. }
  now rewrite E.
Qed.

End ListingMore.

(** ** generate_config: keys, failures and deprecation texts *)

Section KeysMore.

Context `{L : Libs} `{F : FileLayer}.

Lemma prefix_one (x c : ascii) (s : string) :
  prefix (String x "") (String c s) = Ascii.eqb x c.
Proof. rewrite prefix_cons. destruct s; apply andb_true_r. Qed.

Lemma split_from_dot_cons (a b cur : string) :
  occurs_in "." a = false ->
  split_from "." 0 cur (a ++ String "." b)
  = (cur ++ a) :: split_from "." 0 "" b.
Proof.
  revert cur. induction a as [| c a IH]; intros cur H.
  - rewrite append_nil_r. change ("" ++ String "." b) with (String "." b).
    cbn [split_from]. now rewrite prefix_one.
  - cbn [occurs_in] in H. apply orb_false_elim in H as [Hp Ha].
    rewrite prefix_one in Hp.
    change (String c a ++ String "." b) with (String c (a ++ String "." b)).
    cbn [split_from]. rewrite prefix_one, Hp, (IH _ Ha).
    now rewrite snoc_append.
Qed.

Lemma split_from_dot_two (s cur : string) :
  occurs_in "." s = true ->
  exists x y rest, split_from "." 0 cur s = x :: y :: rest.
Proof.
  revert cur. induction s as [| c s IH]; intros cur H; [discriminate |].
  cbn [occurs_in] in H. cbn [split_from].
  destruct (prefix "." (String c s)) eqn:Hp.
  - pose proof (split_from_not_nil "." s "" (String.length "." - 1)) as Hne.
    destruct (split_from "." (String.length "." - 1) "" s) as [| y rest];
      [congruence |].
    now exists cur, y, rest.
  - simpl in H. apply IH. exact H.
Qed.

(** A key has a part after its first dot exactly when it has a dot. *)
Lemma short_key_none_iff (o : ConfigOption) :
  short_key o = None <-> occurs_in "." (key o) = false.
Proof.
  unfold short_key, split. split.
  - intros H. destruct (occurs_in "." (key o)) eqn:E; [| reflexivity].
    destruct (split_from_dot_two (key o) "" E) as (x & y & rest & Hs).
    rewrite Hs in H. discriminate.
  - intros H. now rewrite (split_from_no_occurrence _ _ _ H).
Qed.

Lemma short_key_second_part (o : ConfigOption) (a n tail : string) :
  key o = a ++ "." ++ n ++ tail ->
  occurs_in "." a = false -> occurs_in "." n = false ->
  tail = "" \/ (exists r, tail = "." ++ r) ->
  short_key o = Some n.
Proof.
  intros Hkey Ha Hn Htail. unfold short_key, split. rewrite Hkey.
  change (a ++ "." ++ n ++ tail) with (a ++ String "." (n ++ tail)).
  rewrite (split_from_dot_cons _ _ _ Ha).
  destruct Htail as [-> | [r ->]].
  - rewrite append_nil_r, (split_from_no_occurrence _ _ _ Hn). reflexivity.
  - change (n ++ "." ++ r) with (n ++ String "." r).
    now rewrite (split_from_dot_cons _ _ _ Hn).
Qed.

Lemma occurs_in_one (x : ascii) (s : string) :
  occurs_in (String x "") s = true -> exists a b, s = a ++ String x b.
Proof.
  induction s as [| c s IH]; intros H; [discriminate |].
  cbn [occurs_in] in H. rewrite prefix_one in H.
  apply orb_prop in H as [H | H].
  - apply Ascii.eqb_eq in H as ->. now exists "", s.
  - destruct (IH H) as (a & b & ->). now exists (String c a), b.
Qed.

(** A cleaned text has no line break. *)
Lemma clean_no_line_feed (txt : string) : occurs_in nl (_clean txt) = false.
Proof.
  destruct (occurs_in nl (_clean txt)) eqn:E; [| reflexivity].
  apply occurs_in_one in E as (a & b & E).
  rewrite clean_eq_join in E.
  destruct (join_words_spaces _ _ _ _ (split_ws_words txt) E eq_refl)
    as [Hc _].
  discriminate.
Qed.

(** X15: the setting line is built from the part of [option.key] between
    its first and its second dot; the part before the first dot and
    whatever follows a second dot do not show in it. *)
Theorem setting_key_is_second_part (sd : dict string)
    (opts : dict ConfigOption) (stf : bool) (w : World) (out : list string)
    (name : string) (o : ConfigOption) (a n tail : string) :
  fst (generate_config sd opts stf w) = inr out ->
  In (name, o) opts -> is_listed sd o = true ->
  key o = a ++ "." ++ n ++ tail ->
  occurs_in "." a = false -> occurs_in "." n = false ->
  tail = "" \/ (exists r, tail = "." ++ r) ->
  nth_error (split "." (key o)) 1 = Some n
  /\ exists pre post,
       out = (pre
              ++ styled_setting stf
                   (let t := toml_dumps n (value o) in
                    if is_empty t then "#" ++ n ++ " =" ++ nl
                    else if String.eqb (where_defined o) DEFAULT_DEFINITION
                         then "#" ++ t else t)
                 :: post)%list.
Proof.
  intros Hret Hin Hl Hkey Ha Hn Htail.
  pose proof (short_key_second_part o a n tail Hkey Ha Hn Htail) as Hsk.
  split; [exact Hsk |].
  apply generate_config_returns in Hret.
  destruct (listed_option_block sd opts stf out name o Hret Hin Hl)
    as (k & pre & mid & post & Hk & ->).
  rewrite Hsk in Hk. injection Hk as <-.
  exists (pre ++ section_header stf (section o) ++ mid
          ++ description_lines stf o ++ default_lines stf o
          ++ deprecation_lines stf o ++ provenance_lines stf o)%list, post.
  unfold option_block, setting_text, is_manually_set. cbv zeta.
  destruct (String.eqb (where_defined o) DEFAULT_DEFINITION); simpl negb;
    cbv iota; repeat rewrite <- app_assoc; reflexivity.
Qed.

(** X18: a deprecation text without a blank line makes one comment line,
    "# " followed by the cleaned text and free of line breaks, with the
    removal notice right after it. *)
Theorem one_paragraph_deprecation_text (sd : dict string)
    (opts : dict ConfigOption) (stf : bool) (w : World) (out : list string)
    (name : string) (o : ConfigOption) :
  fst (generate_config sd opts stf w) = inr out ->
  In (name, o) opts -> is_listed sd o = true -> deprecated o = true ->
  occurs_in (nl ++ nl) (deprecation_text o) = false ->
  (exists pre post,
     out = (pre
            ++ styled_comment stf ("# " ++ _clean (deprecation_text o))
               :: styled_comment stf
                    ("# This option will be removed on or after "
                     ++ expiration_date o ++ ".")
               :: post)%list)
  /\ occurs_in nl ("# " ++ _clean (deprecation_text o)) = false.
Proof.
  intros Hret Hin Hl Hdep Hone. split.
  - apply generate_config_returns in Hret.
    destruct (listed_option_block sd opts stf out name o Hret Hin Hl)
      as (k & pre & mid & post & Hk & ->).
    exists (pre ++ section_header stf (section o) ++ mid
            ++ description_lines stf o ++ default_lines stf o
            ++ [styled_comment stf "#";
                styled_comment stf
                  (if stf then "# DEPRECATED."
                   else "# " ++ click_style "DEPRECATED." (Some "yellow")
                                  None)])%list,
      (styled_comment stf "#"
       :: provenance_lines stf o
       ++ [styled_setting stf (setting_text k o)] ++ post)%list.
    unfold option_block, deprecation_lines, removal_notice.
    rewrite Hdep, (clean_paragraphs_one_aux _ Hone).
    repeat rewrite <- app_assoc. reflexivity.
  - change ("# " ++ _clean (deprecation_text o))
      with (String "#" (String " " (_clean (deprecation_text o)))).
    change nl with (String "010" "").
    cbn [occurs_in]. rewrite !prefix_one.
    change (String "010" "") with nl. rewrite clean_no_line_feed.
    reflexivity.
Qed.

End KeysMore.

(** ** The further properties on the sample data *)

Section SamplesMore.

#[local] Existing Instance Sim.libs.

Lemma scalar_ne_irreflexive : forall v : Sim.scalar, Sim.scalar_ne v v = false.
Proof.
  intros [| b | n]; unfold Sim.scalar_ne; simpl; [reflexivity | |];
    now rewrite Z.eqb_refl.
Qed.

Lemma server_option_unchanged_iff_witness :
  server_option_changed Sim.options Sim.options = inr false
  /\ (forall k, In k (keys Sim.options) -> startswith k "server" = true ->
        exists o n,
          lookup Sim.options k = Some o /\ lookup Sim.options k = Some n
          /\ val_ne (value o) (value n) = false).
Proof.
  split; [vm_compute; reflexivity |].
  apply (proj1 (@server_option_unchanged_iff Sim.libs Sim.options
                  Sim.options)).
  vm_compute; reflexivity.
Defined.

Lemma server_option_changed_raises_witness :
  server_option_changed Sim.options [] = inl (KeyError "server.port")
  /\ exists k,
       KeyError "server.port" = KeyError k /\ In k (keys Sim.options)
       /\ startswith k "server" = true
       /\ lookup ([] : dict ConfigOption) k = None.
Proof.
  split; [vm_compute; reflexivity |].
  apply (@server_option_changed_raises Sim.libs Sim.options []).
  vm_compute; reflexivity.
Defined.

Lemma first_server_difference_decides_witness :
  keys Sim.options
  = (["server.port"; "browser.gatherUsageStats"]
     ++ "server.headless" :: ["server.secret"])%list
  /\ lookup SimMore.partial_options "server.secret" = None
  /\ server_option_changed Sim.options SimMore.partial_options = inr true.
Proof.
  split; [reflexivity |]. split; [reflexivity |].
  apply (proj2 (@first_server_difference_decides Sim.libs Sim.options
                  SimMore.partial_options
                  ["server.port"; "browser.gatherUsageStats"]
                  ["server.secret"] "server.headless" Sim.headless
                  eq_refl
                  ltac:(intros k' [<- | [<- | []]] Hs;
                        [exists Sim.port, Sim.port; repeat split
                        | discriminate])
                  eq_refl eq_refl)
           SimMore.quiet); reflexivity.
Defined.

Lemma server_option_changed_same_witness :
  (forall v, val_ne v v = false)
  /\ server_option_changed Sim.options Sim.options = inr false.
Proof.
  split; [exact scalar_ne_irreflexive |].
  apply (@server_option_changed_same Sim.libs Sim.options).
  exact scalar_ne_irreflexive.
Defined.

Lemma no_server_keys_no_change_witness :
  (forall k, In k (keys SimMore.only_browser) ->
     startswith k "server" = false)
  /\ server_option_changed SimMore.only_browser [] = inr false.
Proof.
  assert (H : forall k, In k (keys SimMore.only_browser) ->
                startswith k "server" = false)
    by (intros k [<- | []]; reflexivity).
  split; [exact H |].
  exact (@no_server_keys_no_change Sim.libs SimMore.only_browser [] H).
Defined.

Lemma clean_empty_iff_blank_witness :
  all_space ("  " ++ nl ++ " ") = true /\ _clean ("  " ++ nl ++ " ") = "".
Proof.
  split; [reflexivity |].
  apply (proj2 (clean_empty_iff_blank ("  " ++ nl ++ " "))). reflexivity.
Defined.

Lemma clean_spaces_are_single_witness :
  _clean ("  a   b" ++ nl) = "a" ++ String " " "b"
  /\ is_space " " = true
  /\ (" "%char = " "%char /\ is_empty "a" = false
      /\ starts_with_ink "b" = true).
Proof.
  split; [reflexivity |]. split; [reflexivity |].
  apply (clean_spaces_are_single ("  a   b" ++ nl) "a" "b" " ");
    reflexivity.
Defined.

Lemma clean_around_space_witness :
  is_space "010" = true
  /\ _clean (" x" ++ String "010" "y  ") = "x y".
Proof.
  split; [reflexivity |].
  rewrite (clean_around_space " x" "y  " "010"); reflexivity.
Defined.

Lemma clean_paragraphs_one_witness :
  occurs_in (nl ++ nl) ("one" ++ nl ++ "  paragraph") = false
  /\ _clean_paragraphs ("one" ++ nl ++ "  paragraph") = ["one paragraph"].
Proof.
  split; [reflexivity |].
  rewrite (clean_paragraphs_one ("one" ++ nl ++ "  paragraph"));
    reflexivity.
Defined.

Lemma clean_paragraphs_after_blank_line_witness :
  occurs_in (nl ++ nl) "first  paragraph" = false
  /\ ends_with "010" "first  paragraph" = false
  /\ _clean_paragraphs
       ("first  paragraph" ++ nl ++ nl ++ "second" ++ nl ++ nl ++ "third")
     = ["first paragraph"; "second"; "third"].
Proof.
  split; [reflexivity |]. split; [reflexivity |].
  rewrite (clean_paragraphs_after_blank_line "first  paragraph"
             ("second" ++ nl ++ nl ++ "third")); reflexivity.
Defined.

Lemma section_descriptions_unused_witness :
  keys Sim.sections = keys SimMore.retitled_sections
  /\ Sim.run Sim.sections Sim.options true Sim.fresh_world
     = Sim.run SimMore.retitled_sections Sim.options true Sim.fresh_world.
Proof.
  split; [reflexivity |].
  apply (@section_descriptions_unused Sim.libs Sim.files). reflexivity.
Defined.

Lemma option_mapping_keys_unused_witness :
  map snd Sim.options = map snd SimMore.renamed_options
  /\ Sim.run Sim.sections Sim.options true Sim.fresh_world
     = Sim.run Sim.sections SimMore.renamed_options true Sim.fresh_world.
Proof.
  split; [reflexivity |].
  apply (@option_mapping_keys_unused Sim.libs Sim.files). reflexivity.
Defined.

Lemma sections_listing_appends_witness :
  Sim.run SimMore.server_only Sim.options false Sim.fresh_world
  = (inr (SimMore.lines_of SimMore.server_only Sim.options false),
     Sim.fresh_world)
  /\ Sim.run SimMore.browser_only Sim.options false Sim.fresh_world
     = (inr (SimMore.lines_of SimMore.browser_only Sim.options false),
        Sim.fresh_world)
  /\ Sim.run (SimMore.server_only ++ SimMore.browser_only)%list Sim.options
       false Sim.fresh_world
     = (inr (SimMore.lines_of SimMore.server_only Sim.options false
             ++ tl (SimMore.lines_of SimMore.browser_only Sim.options false))%list,
        Sim.fresh_world).
Proof.
  split; [vm_compute; reflexivity |]. split; [vm_compute; reflexivity |].
  apply (@sections_listing_appends Sim.libs Sim.files); vm_compute;
    reflexivity.
Defined.


Lemma setting_key_is_second_part_witness :
  fst (Sim.run Sim.sections [("n", SimMore.nested)] true Sim.fresh_world)
  = inr (SimMore.lines_of Sim.sections [("n", SimMore.nested)] true)
  /\ key SimMore.nested = "server" ++ "." ++ "port" ++ ".timeout"
  /\ nth_error (split "." (key SimMore.nested)) 1 = Some "port"
  /\ exists pre post,
       SimMore.lines_of Sim.sections [("n", SimMore.nested)] true
       = (pre ++ ("#port = 5" ++ nl)%string :: post)%list.
Proof.
  split; [vm_compute; reflexivity |]. split; [reflexivity |].
  apply (@setting_key_is_second_part Sim.libs Sim.files Sim.sections
           [("n", SimMore.nested)] true Sim.fresh_world
           (SimMore.lines_of Sim.sections [("n", SimMore.nested)] true)
           "n" SimMore.nested "server" "port" ".timeout").
  - vm_compute; reflexivity.
  - left; reflexivity.
  - reflexivity.
  - reflexivity.
  - reflexivity.
  - reflexivity.
  - right. now exists "timeout".
Defined.

Lemma deprecated_option_notice_witness :
  fst (Sim.run Sim.sections [("f", Sim.old_flag)] true Sim.fresh_world)
  = inr Sim.old_flag_lines
  /\ deprecated Sim.old_flag = true
  /\ exists pre post,
       Sim.old_flag_lines
       = (pre
          ++ [ "#"; "# DEPRECATED.";
               ("# Use server.folderWatchList instead." ++ nl
                ++ "See the documentation.")%string;
               "# This option will be removed on or after 2023-01-01.";
               "#" ]
          ++ post)%list.
Proof.
  split; [vm_compute; reflexivity |]. split; [reflexivity |].
  apply (@deprecated_option_notice Sim.libs Sim.files Sim.sections
           [("f", Sim.old_flag)] true Sim.fresh_world Sim.old_flag_lines
           "f" Sim.old_flag).
  - vm_compute; reflexivity.
  - left; reflexivity.
  - reflexivity.
  - reflexivity.
Defined.

Lemma one_paragraph_deprecation_text_witness :
  fst (Sim.run Sim.sections [("r", SimMore.retired)] true Sim.fresh_world)
  = inr (SimMore.lines_of Sim.sections [("r", SimMore.retired)] true)
  /\ occurs_in (nl ++ nl) (deprecation_text SimMore.retired) = false
  /\ (exists pre post,
        SimMore.lines_of Sim.sections [("r", SimMore.retired)] true
        = (pre
           ++ "# Use server.runOnSave instead."
              :: "# This option will be removed on or after 2023-06-01."
              :: post)%list).
Proof.
  split; [vm_compute; reflexivity |]. split; [reflexivity |].
  apply (@one_paragraph_deprecation_text Sim.libs Sim.files Sim.sections
           [("r", SimMore.retired)] true Sim.fresh_world
           (SimMore.lines_of Sim.sections [("r", SimMore.retired)] true)
           "r" SimMore.retired).
  - vm_compute; reflexivity.
  - left; reflexivity.
  - reflexivity.
  - reflexivity.
  - reflexivity.
Defined.

Lemma no_listed_option_bare_sections_witness :
  (forall item, In item [("h", Sim.hidden_flag)] ->
     is_listed Sim.sections (snd item) = false)
  /\ Sim.run Sim.sections [("h", Sim.hidden_flag)] false Sim.used_world
     = (inr [ header_line;
              ""; Sim.ansi_style "[server]" (Some "green") (Some true); "";
              ""; Sim.ansi_style "[browser]" (Some "green") (Some true); "" ],
        Sim.used_world).
Proof.
  assert (H : forall item, In item [("h", Sim.hidden_flag)] ->
                is_listed Sim.sections (snd item) = false)
    by (intros item [<- | []]; reflexivity).
  split; [exact H |].
  exact (@no_listed_option_bare_sections Sim.libs Sim.files Sim.sections
           [("h", Sim.hidden_flag)] Sim.used_world H).
Defined.

End SamplesMore.
